(** * Iris voting backend: registry, session handshake and ballot ledger

    A shallow embedding of the request handlers of [main.py] over the
    document schemas of [schemas.py].  The document store is an explicit
    state; every handler is a computation in a state-and-error monad that
    returns either its JSON response or the exception it ends with.
    [run] serves the requests one after the other; [interleave] lets
    the store operations of overlapping requests alternate. *)

From Stdlib Require Import List String Ascii NArith ZArith Bool Lia.
From Stdlib Require Import Permutation Sorted.
Import ListNotations.
Local Open Scope string_scope.

Set Implicit Arguments.

(* ================================================================= *)
(** ** Python strings *)

(** A [str] is a sequence of code points; the model covers the code
    points below 256, one [ascii] each. *)
Definition str := string.

Definition len (s : str) : nat := String.length s.

(** [s[:n]]: the first [n] characters, or all of [s] when it is shorter. *)
Fixpoint slice_to (n : nat) (s : str) : str :=
  match n, s with
  | S n', String c s' => String c (slice_to n' s')
  | _, _ => EmptyString
  end.

(** [str.lower] on one code point below 256: the letters A-Z and the
    capital letters of the Latin-1 block (0xC0-0xDE without the
    multiplication sign 0xD7) move up by 32, the rest is unchanged. *)
Definition lower_char (c : ascii) : ascii :=
  let n := N_of_ascii c in
  if ((65 <=? n) && (n <=? 90))%N
     || ((192 <=? n) && (n <=? 222) && negb (n =? 215))%N
  then ascii_of_N (n + 32) else c.

Fixpoint lower (s : str) : str :=
  match s with
  | EmptyString => EmptyString
  | String c s' => String (lower_char c) (lower s')
  end.

(** [data.encode("utf-8")] for code points below 256. *)
Fixpoint encode_utf8 (s : str) : list N :=
  match s with
  | EmptyString => []
  | String c s' =>
      let n := N_of_ascii c in
      if (n <? 128)%N then n :: encode_utf8 s'
      else N.lor 192 (N.shiftr n 6) :: N.lor 128 (N.land n 63) :: encode_utf8 s'
  end.

(* ================================================================= *)
(** ** hashlib.sha256 *)

Module SHA256.
Local Open Scope N_scope.

Definition w32 (x : N) : N := N.land x 0xffffffff.
Definition add32 (x y : N) : N := w32 (x + y).
Definition rotr (n x : N) : N := w32 (N.lor (N.shiftr x n) (N.shiftl x (32 - n))).
Definition not32 (x : N) : N := N.lxor x 0xffffffff.

Definition Ch (x y z : N) := N.lxor (N.land x y) (N.land (not32 x) z).
Definition Maj (x y z : N) := N.lxor (N.lxor (N.land x y) (N.land x z)) (N.land y z).
Definition Sigma0 x := N.lxor (N.lxor (rotr 2 x) (rotr 13 x)) (rotr 22 x).
Definition Sigma1 x := N.lxor (N.lxor (rotr 6 x) (rotr 11 x)) (rotr 25 x).
Definition sigma0 x := N.lxor (N.lxor (rotr 7 x) (rotr 18 x)) (N.shiftr x 3).
Definition sigma1 x := N.lxor (N.lxor (rotr 17 x) (rotr 19 x)) (N.shiftr x 10).

(** The constants of the standard are cut from roots of primes: the
    first 32 bits of the fractional part of the cube root of each of the
    first 64 primes for the rounds, and of the square root of each of
    the first 8 for the initial state. *)
Definition is_prime (n : nat) : bool :=
  forallb (fun d => negb (Nat.eqb (Nat.modulo n d) 0)) (seq 2 (n - 2)).

Definition primes : list N :=
  map N.of_nat (filter is_prime (seq 2 310)).

(** The greatest [r] below [2 ^ n] with [r * r * r <= x], bit by bit. *)
Fixpoint cube_root (n : nat) (x r : N) : N :=
  match n with
  | O => r
  | S n' =>
      let r' := N.lor r (N.shiftl 1 (N.of_nat n')) in
      cube_root n' x (if r' * r' * r' <=? x then r' else r)
  end.

Definition K : list N :=
  map (fun p => w32 (cube_root 40 (N.shiftl p 96) 0)) primes.

Definition H0 : list N :=
  map (fun p => w32 (N.sqrt (N.shiftl p 64))) (firstn 8 primes).

(** Big-endian bytes of [x], [n] of them. *)
Fixpoint be_bytes (n : nat) (x : N) : list N :=
  match n with
  | O => []
  | S n' => N.land (N.shiftr x (8 * N.of_nat n')) 255 :: be_bytes n' x
  end.

Definition be_word (bs : list N) : N :=
  fold_left (fun acc b => N.lor (N.shiftl acc 8) b) bs 0.

(** The message, the bit 1, zeros up to 56 modulo 64, the bit length. *)
Definition pad (msg : list N) : list N :=
  let l := List.length msg in
  let z := Nat.modulo (119 - Nat.modulo l 64) 64 in
  msg ++ 128 :: repeat 0 z ++ be_bytes 8 (8 * N.of_nat l).

Fixpoint chunks (fuel k : nat) (l : list N) : list (list N) :=
  match fuel, l with
  | S f, _ :: _ => firstn k l :: chunks f k (skipn k l)
  | _, _ => []
  end.

Definition words (block : list N) : list N :=
  map be_word (chunks 16 4 block).

(** The message schedule, most recent word first. *)
Fixpoint extend (n : nat) (rw : list N) : list N :=
  match n with
  | O => rw
  | S n' =>
      let w := add32 (add32 (sigma1 (nth 1 rw 0)) (nth 6 rw 0))
                     (add32 (sigma0 (nth 14 rw 0)) (nth 15 rw 0)) in
      extend n' (w :: rw)
  end.

Definition schedule (block : list N) : list N :=
  rev (extend 48 (rev (words block))).

Definition round (st : list N) (kw : N * N) : list N :=
  match st with
  | [a; b; c; d; e; f; g; h] =>
      let t1 := add32 (add32 (add32 h (Sigma1 e)) (add32 (Ch e f g) (fst kw))) (snd kw) in
      let t2 := add32 (Sigma0 a) (Maj a b c) in
      [add32 t1 t2; a; b; c; add32 d t1; e; f; g]
  | _ => st
  end.

Definition compress (h : list N) (block : list N) : list N :=
  let st := fold_left round (combine K (schedule block)) h in
  map (fun p => add32 (fst p) (snd p)) (combine h st).

Definition digest (msg : list N) : list N :=
  let p := pad msg in
  flat_map (be_bytes 4) (fold_left compress (chunks (List.length p) 64 p) H0).

Definition hex_digit (n : N) : ascii :=
  if n <? 10 then ascii_of_N (48 + n) else ascii_of_N (87 + n).

Fixpoint hex (bs : list N) : string :=
  match bs with
  | [] => EmptyString
  | b :: bs' => String (hex_digit (N.shiftr b 4)) (String (hex_digit (N.land b 15)) (hex bs'))
  end.

Definition hexdigest (msg : list N) : string := hex (digest msg).

End SHA256.

(** [sha256_hex] of main.py. *)
Definition sha256_hex (data : str) : str :=
  SHA256.hexdigest (encode_utf8 data).

(* ================================================================= *)
(** ** Documents (schemas.py) *)

(** A naive [datetime], as microseconds since the epoch. *)
Definition datetime := Z.
Bind Scope Z_scope with datetime.

(** A BSON date counts whole milliseconds: what is left of a
    [datetime] once it has been stored. *)
Definition to_millis (t : datetime) : datetime := (1000 * (t / 1000))%Z.

(** An int that BSON can hold: eight bytes, signed. *)
Definition fits_int64 (z : Z) : bool :=
  ((- 2 ^ 63 <=? z) && (z <? 2 ^ 63))%Z.

(** The untyped payloads ([demographics], [zk_proof]) are stored and
    never inspected. *)
#[warnings="-register-all"]
Inductive json :=
| JNull
| JBool (b : bool)
| JInt (z : Z)
| JStr (s : str)
| JList (l : list json)
| JDict (d : list (str * json)).

Definition dict := list (str * json).

(** [d or {}] for an optional dict. *)
Definition or_empty (d : option dict) : dict :=
  match d with
  | Some (x :: l) => x :: l
  | _ => []
  end.

Module Voter.
Record t := {
    voter_id : str;
    name : str;
    email : option str;
    demographics : dict;
    public_key : str;
    public_key_hash : str;
    iris_commitment : str;
    registered_at : option datetime
  }.
End Voter.

Module Candidate.
Record t := {
    id : str;
    name : str;
    party : option str
  }.
End Candidate.

Inductive Status := draft | active | closed.

Module Election.
Record t := {
    title : str;
    description : option str;
    status : Status;
    candidates : list Candidate.t;
    start_time : option datetime;
    end_time : option datetime
  }.
End Election.

Module VoteRecord.
Record t := {
    election_id : str;
    voter_public_key_hash : str;
    candidate_id : str;
    zk_proof : dict;
    signed_payload : option str;
    tx_hash : option str;
    chain_id : option Z;
    contract_address : option str
  }.
End VoteRecord.

Module AuthSession.
Record t := {
    voter_id : str;
    nonce : str;
    created_at : option datetime;
    verified : bool
  }.
End AuthSession.

(* ================================================================= *)
(** ** bson.ObjectId *)

(** Twelve bytes, as a number below [2 ^ 96]; [str(oid)] is its 24
    lower-case hexadecimal digits.  [ObjectId(s)] takes a string of 24
    characters and reads it with [bytes.fromhex], which skips ASCII
    whitespace before a pair of digits: such a string gives fewer than
    twelve bytes, an identifier that no stored document has; these are
    numbered from [2 ^ 96] upwards. *)
Definition ObjectId := N.

Definition ObjectId_str (oid : ObjectId) : str :=
  SHA256.hex (SHA256.be_bytes 12 oid).

Definition hex_value (c : ascii) : option N :=
  let n := N_of_ascii c in
  if ((48 <=? n) && (n <=? 57))%N then Some (n - 48)%N
  else if ((97 <=? n) && (n <=? 102))%N then Some (n - 87)%N
  else if ((65 <=? n) && (n <=? 70))%N then Some (n - 55)%N
  else None.

(** The characters [bytes.fromhex] skips. *)
Definition is_space (c : ascii) : bool :=
  let n := N_of_ascii c in
  ((9 <=? n) && (n <=? 13))%N || (n =? 32)%N.

(** [bytes.fromhex(s)]: pairs of hexadecimal digits, whitespace allowed
    before a pair; [None] stands for [ValueError]. *)
Fixpoint fromhex (s : str) : option (list N) :=
  match s with
  | EmptyString => Some []
  | String c s' =>
      if is_space c then fromhex s'
      else
        match hex_value c, s' with
        | Some hi, String c' s'' =>
            match hex_value c', fromhex s'' with
            | Some lo, Some bs => Some ((16 * hi + lo)%N :: bs)
            | _, _ => None
            end
        | _, _ => None
        end
  end.

Definition bytes_value (bs : list N) : N :=
  fold_left (fun a b => (256 * a + b)%N) bs 0%N.

(** The identifier with the given bytes. *)
Definition ObjectId_of_bytes (bs : list N) : ObjectId :=
  if Nat.eqb (List.length bs) 12 then bytes_value bs
  else (2 ^ 96 * (1 + N.of_nat (List.length bs)) + bytes_value bs)%N.

(** [ObjectId(s)]; [None] stands for the [InvalidId] exception. *)
Definition ObjectId_of_str (s : str) : option ObjectId :=
  if Nat.eqb (len s) 24 then
    match fromhex s with
    | Some bs => Some (ObjectId_of_bytes bs)
    | None => None
    end
  else None.

(* ================================================================= *)
(** ** The document store *)

Record Doc (A : Type) := { _id : ObjectId; fields : A }.
Arguments _id {A} d.
Arguments fields {A} d.

(** A collection keeps its documents in insertion order. *)
Definition collection (A : Type) := list (Doc A).

Record Database := {
  voter : collection Voter.t;
  authsession : collection AuthSession.t;
  election : collection Election.t;
  voterecord : collection VoteRecord.t;
  next_oid : ObjectId
}.

Definition empty_db : Database :=
  {| voter := []; authsession := []; election := []; voterecord := [];
     next_oid := 0%N |}.

(** [db[name]]: how to read and replace one collection of the store,
    and what a document of it reads back as once it has been stored. *)
Record Coll (A : Type) := {
  coll_get : Database -> collection A;
  coll_set : collection A -> Database -> Database;
  coll_bson : A -> A
}.

Definition bson_voter (v : Voter.t) : Voter.t :=
  {| Voter.voter_id := Voter.voter_id v;
     Voter.name := Voter.name v;
     Voter.email := Voter.email v;
     Voter.demographics := Voter.demographics v;
     Voter.public_key := Voter.public_key v;
     Voter.public_key_hash := Voter.public_key_hash v;
     Voter.iris_commitment := Voter.iris_commitment v;
     Voter.registered_at := option_map to_millis (Voter.registered_at v) |}.

Definition bson_authsession (s : AuthSession.t) : AuthSession.t :=
  {| AuthSession.voter_id := AuthSession.voter_id s;
     AuthSession.nonce := AuthSession.nonce s;
     AuthSession.created_at := option_map to_millis (AuthSession.created_at s);
     AuthSession.verified := AuthSession.verified s |}.

Definition bson_election (e : Election.t) : Election.t :=
  {| Election.title := Election.title e;
     Election.description := Election.description e;
     Election.status := Election.status e;
     Election.candidates := Election.candidates e;
     Election.start_time := option_map to_millis (Election.start_time e);
     Election.end_time := option_map to_millis (Election.end_time e) |}.

Definition db_voter : Coll Voter.t :=
  {| coll_get := voter;
     coll_set := fun c db =>
       {| voter := c; authsession := authsession db; election := election db;
          voterecord := voterecord db; next_oid := next_oid db |};
     coll_bson := bson_voter |}.

Definition db_authsession : Coll AuthSession.t :=
  {| coll_get := authsession;
     coll_set := fun c db =>
       {| voter := voter db; authsession := c; election := election db;
          voterecord := voterecord db; next_oid := next_oid db |};
     coll_bson := bson_authsession |}.

Definition db_election : Coll Election.t :=
  {| coll_get := election;
     coll_set := fun c db =>
       {| voter := voter db; authsession := authsession db; election := c;
          voterecord := voterecord db; next_oid := next_oid db |};
     coll_bson := bson_election |}.

Definition db_voterecord : Coll VoteRecord.t :=
  {| coll_get := voterecord;
     coll_set := fun c db =>
       {| voter := voter db; authsession := authsession db; election := election db;
          voterecord := c; next_oid := next_oid db |};
     coll_bson := fun r => r |}.

(* ================================================================= *)
(** ** Handlers as computations: state and [HTTPException] *)

Record HTTPException := { status_code : nat; detail : str }.

(** What a handler ends with: its response, the [HTTPException] it
    raises, or another exception that no handler catches, by the name
    of its class. *)
Inductive result (A : Type) :=
| Ok (a : A)
| Raised (e : HTTPException)
| Uncaught (exc : str).
Arguments Ok {A} a.
Arguments Raised {A} e.
Arguments Uncaught {A} exc.

Definition M (A : Type) := Database -> result A * Database.

Definition ret {A} (a : A) : M A := fun db => (Ok a, db).

Definition raise {A} (e : HTTPException) : M A := fun db => (Raised e, db).

Definition bind {A B} (m : M A) (k : A -> M B) : M B :=
  fun db =>
    match m db with
    | (Ok a, db') => k a db'
    | (Raised e, db') => (Raised e, db')
    | (Uncaught exc, db') => (Uncaught exc, db')
    end.

Notation "x <- m ;; k" := (bind m (fun x => k))
  (at level 61, m at next level, right associativity).

Definition is_ok {A} (r : result A) : bool :=
  match r with Ok _ => true | _ => false end.

(** *** pymongo collection operations *)

(** [coll.find_one(q)]: the first document in natural order that
    satisfies [q]. *)
Definition find_one {A} (c : Coll A) (q : Doc A -> bool) : M (option (Doc A)) :=
  fun db => (Ok (find q (coll_get c db)), db).

(** BSON order on an optional date: a missing value sorts below every
    date. *)
Definition date_leb (a b : option datetime) : bool :=
  match a, b with
  | None, _ => true
  | Some _, None => false
  | Some x, Some y => (x <=? y)%Z
  end.

(** The first document of [l] whose key is the greatest. *)
Fixpoint first_max {A} (key : A -> option datetime) (best : A) (l : list A) : A :=
  match l with
  | [] => best
  | x :: l' => first_max key (if date_leb (key x) (key best) then best else x) l'
  end.

(** [coll.find_one(q, sort=[(key, -1)])]: among the documents that
    satisfy [q], one whose key is the greatest; between documents with
    equal keys the one inserted first is taken. *)
Definition find_one_desc {A} (c : Coll A) (q : Doc A -> bool)
    (key : Doc A -> option datetime) : M (option (Doc A)) :=
  fun db =>
    match filter q (coll_get c db) with
    | [] => (Ok None, db)
    | d :: l => (Ok (Some (first_max key d l)), db)
    end.

(** Apply [upd] to the first document that satisfies [q]; the flag tells
    whether there was one. *)
Fixpoint update_first {A} (q : Doc A -> bool) (upd : A -> A) (l : collection A)
    : collection A * bool :=
  match l with
  | [] => ([], false)
  | d :: l' =>
      if q d then ({| _id := _id d; fields := upd (fields d) |} :: l', true)
      else let (r, hit) := update_first q upd l' in (d :: r, hit)
  end.

(** [coll.update_one(q, {"$set": ...})], returning [matched_count].
    The update document is encoded before anything is sent: when one of
    its ints, listed in [ints], does not fit eight bytes the call raises
    [OverflowError] and the store is not touched. *)
Definition update_one {A} (c : Coll A) (q : Doc A -> bool) (upd : A -> A)
    (ints : list Z) : M nat :=
  fun db =>
    if forallb fits_int64 ints then
      let (l, hit) := update_first q upd (coll_get c db) in
      (Ok (if hit then 1 else 0), coll_set c l db)
    else (Uncaught "OverflowError", db).

(** Modelled from the spec: [create_document] of the absent module
    [database] stores the given document as a new one of the
    collection, under an identifier no earlier document has, and returns
    that identifier as a string.  The store keeps dates to the
    millisecond. *)
Definition create_document {A} (c : Coll A) (data : A) : M str :=
  fun db =>
    let oid := next_oid db in
    let db1 :=
      coll_set c (coll_get c db ++ [{| _id := oid; fields := coll_bson c data |}])%list db in
    (Ok (ObjectId_str oid),
     {| voter := voter db1; authsession := authsession db1; election := election db1;
        voterecord := voterecord db1; next_oid := (oid + 1)%N |}).

(** Modelled from the spec: [get_documents] of the absent module
    [database] returns the documents of the collection. *)
Definition get_documents {A} (c : Coll A) : M (list (Doc A)) :=
  fun db => (Ok (coll_get c db), db).

(* ================================================================= *)
(** ** Request bodies and responses (main.py) *)

Module RegisterRequest.
Record t := {
  voter_id : str;
  name : str;
  email : option str;
  demographics : option dict;
  public_key : str;
  iris_commitment : str
}.
End RegisterRequest.

Module ChallengeResponse.
Record t := { voter_id : str }.
End ChallengeResponse.

Module VerifyRequest.
Record t := {
  voter_id : str;
  iris_commitment_proof : str;
  signed_nonce : str
}.
End VerifyRequest.

Module CreateElectionRequest.
Record t := {
  title : str;
  description : option str;
  candidates : list Candidate.t;
  start_time : option datetime;
  end_time : option datetime
}.
End CreateElectionRequest.

Module CastVoteRequest.
Record t := {
  election_id : str;
  voter_public_key_hash : str;
  candidate_id : str;
  zk_proof : option dict;
  signed_payload : option str
}.
End CastVoteRequest.

Module AttachTxRequest.
Record t := {
  vote_id : str;
  tx_hash : str;
  contract_address : option str;
  chain_id : option Z
}.
End AttachTxRequest.

(** The response dictionaries; [ok] is [True] wherever the source puts
    it, so it is left out. *)
Inductive Response :=
| Message (message : str)
| Registered (id public_key_hash : str)
| Challenge (nonce : str)
| Verified (public_key_hash : str)
| Created (id : str)
| Attached
| Elections (items : list (str * Election.t))
| Votes (items : list (str * VoteRecord.t)).

Definition HTTP (code : nat) (msg : str) : HTTPException :=
  {| status_code := code; detail := msg |}.

(* ================================================================= *)
(** ** The handlers *)

Definition root : M Response := ret (Message "Voting API running").

(** *** Registration *)

Definition register_voter (utcnow : datetime) (payload : RegisterRequest.t) : M Response :=
  let pk_hash := sha256_hex (lower (RegisterRequest.public_key payload)) in
  existing <- find_one db_voter (fun d =>
      String.eqb (Voter.voter_id (fields d)) (RegisterRequest.voter_id payload)
      || String.eqb (Voter.public_key_hash (fields d)) pk_hash) ;;
  match existing with
  | Some _ => raise (HTTP 400 "Voter already registered")
  | None =>
      let voter :=
        {| Voter.voter_id := RegisterRequest.voter_id payload;
           Voter.name := RegisterRequest.name payload;
           Voter.email := RegisterRequest.email payload;
           Voter.demographics := or_empty (RegisterRequest.demographics payload);
           Voter.public_key := RegisterRequest.public_key payload;
           Voter.public_key_hash := pk_hash;
           Voter.iris_commitment := RegisterRequest.iris_commitment payload;
           Voter.registered_at := Some utcnow |} in
      voter_id <- create_document db_voter voter ;;
      ret (Registered voter_id pk_hash)
  end.

(** *** Auth *)

(** [token] is the value of [secrets.token_hex(16)]. *)
Definition auth_challenge (utcnow : datetime) (token : str)
    (payload : ChallengeResponse.t) : M Response :=
  exists_ <- find_one db_voter (fun d =>
      String.eqb (Voter.voter_id (fields d)) (ChallengeResponse.voter_id payload)) ;;
  match exists_ with
  | None => raise (HTTP 404 "Voter not found")
  | Some _ =>
      let nonce := token in
      let session :=
        {| AuthSession.voter_id := ChallengeResponse.voter_id payload;
           AuthSession.nonce := nonce;
           AuthSession.created_at := Some utcnow;
           AuthSession.verified := false |} in
      _ <- create_document db_authsession session ;;
      ret (Challenge nonce)
  end.

Definition set_verified (s : AuthSession.t) : AuthSession.t :=
  {| AuthSession.voter_id := AuthSession.voter_id s;
     AuthSession.nonce := AuthSession.nonce s;
     AuthSession.created_at := AuthSession.created_at s;
     AuthSession.verified := true |}.

Definition auth_verify (payload : VerifyRequest.t) : M Response :=
  voter <- find_one db_voter (fun d =>
      String.eqb (Voter.voter_id (fields d)) (VerifyRequest.voter_id payload)) ;;
  match voter with
  | None => raise (HTTP 404 "Voter not found")
  | Some voter =>
      session <- find_one_desc db_authsession
        (fun d => String.eqb (AuthSession.voter_id (fields d)) (VerifyRequest.voter_id payload))
        (fun d => AuthSession.created_at (fields d)) ;;
      match session with
      | None => raise (HTTP 400 "No active session")
      | Some session =>
          let proof_ok :=
            String.eqb (slice_to 8 (Voter.iris_commitment (fields voter)))
                       (slice_to 8 (VerifyRequest.iris_commitment_proof payload)) in
          let sig_ok := Nat.leb 64 (len (VerifyRequest.signed_nonce payload)) in
          if negb (proof_ok && sig_ok) then raise (HTTP 401 "Verification failed")
          else
            _ <- update_one db_authsession
                   (fun d => N.eqb (_id d) (_id session)) set_verified [] ;;
            ret (Verified (Voter.public_key_hash (fields voter)))
      end
  end.

(** *** Elections *)

Definition create_election (utcnow : datetime) (payload : CreateElectionRequest.t)
    : M Response :=
  let election :=
    {| Election.title := CreateElectionRequest.title payload;
       Election.description := CreateElectionRequest.description payload;
       Election.candidates := CreateElectionRequest.candidates payload;
       Election.status := active;
       Election.start_time :=
         Some (match CreateElectionRequest.start_time payload with
               | Some t => t
               | None => utcnow
               end);
       Election.end_time := CreateElectionRequest.end_time payload |} in
  election_id <- create_document db_election election ;;
  ret (Created election_id).

Definition stringify {A} (items : list (Doc A)) : list (str * A) :=
  map (fun it => (ObjectId_str (_id it), fields it)) items.

Definition list_elections : M Response :=
  items <- get_documents db_election ;;
  ret (Elections (stringify items)).

(** *** Voting *)

Definition cast_vote (payload : CastVoteRequest.t) : M Response :=
  exists_ <- find_one db_voterecord (fun d =>
      String.eqb (VoteRecord.election_id (fields d)) (CastVoteRequest.election_id payload)
      && String.eqb (VoteRecord.voter_public_key_hash (fields d))
                    (CastVoteRequest.voter_public_key_hash payload)) ;;
  match exists_ with
  | Some _ => raise (HTTP 400 "Voter already cast a vote for this election")
  | None =>
      let rec :=
        {| VoteRecord.election_id := CastVoteRequest.election_id payload;
           VoteRecord.voter_public_key_hash := CastVoteRequest.voter_public_key_hash payload;
           VoteRecord.candidate_id := CastVoteRequest.candidate_id payload;
           VoteRecord.zk_proof := or_empty (CastVoteRequest.zk_proof payload);
           VoteRecord.signed_payload := CastVoteRequest.signed_payload payload;
           VoteRecord.tx_hash := None;
           VoteRecord.chain_id := None;
           VoteRecord.contract_address := None |} in
      rec_id <- create_document db_voterecord rec ;;
      ret (Created rec_id)
  end.

(** The [$set] of [attach_tx]. *)
Definition set_tx (payload : AttachTxRequest.t) (r : VoteRecord.t) : VoteRecord.t :=
  {| VoteRecord.election_id := VoteRecord.election_id r;
     VoteRecord.voter_public_key_hash := VoteRecord.voter_public_key_hash r;
     VoteRecord.candidate_id := VoteRecord.candidate_id r;
     VoteRecord.zk_proof := VoteRecord.zk_proof r;
     VoteRecord.signed_payload := VoteRecord.signed_payload r;
     VoteRecord.tx_hash := Some (AttachTxRequest.tx_hash payload);
     VoteRecord.chain_id := AttachTxRequest.chain_id payload;
     VoteRecord.contract_address := AttachTxRequest.contract_address payload |}.

(** The ints of the [$set] of [attach_tx]. *)
Definition set_ints (payload : AttachTxRequest.t) : list Z :=
  match AttachTxRequest.chain_id payload with
  | Some z => [z]
  | None => []
  end.

Definition attach_tx (payload : AttachTxRequest.t) : M Response :=
  match ObjectId_of_str (AttachTxRequest.vote_id payload) with
  | None => raise (HTTP 400 "Invalid vote id")
  | Some oid =>
      matched_count <- update_one db_voterecord
                         (fun d => N.eqb (_id d) oid) (set_tx payload)
                         (set_ints payload) ;;
      if Nat.eqb matched_count 0 then raise (HTTP 404 "Vote not found")
      else ret Attached
  end.

(** [.sort("_id", -1)]: insertion into a list kept in descending order
    of [_id]. *)
Fixpoint insert_desc {A} (d : Doc A) (l : list (Doc A)) : list (Doc A) :=
  match l with
  | [] => [d]
  | x :: l' => if (_id x <? _id d)%N then d :: l else x :: insert_desc d l'
  end.

Definition sort_id_desc {A} (l : list (Doc A)) : list (Doc A) :=
  fold_right insert_desc [] l.

Definition list_votes (election_id : option str) : M Response :=
  let q : Doc VoteRecord.t -> bool :=
    match election_id with
    | Some (String c e) =>
        fun d => String.eqb (VoteRecord.election_id (fields d)) (String c e)
    | _ => fun _ => true
    end in
  fun db => (Ok (Votes (stringify (sort_id_desc (filter q (voterecord db))))), db).

(* ================================================================= *)
(** ** The service as a transition system *)

(** One request: the route, the body, and what the handler reads from
    its environment (the clock, the random token).  The diagnostic route
    [/test] reads the environment and the collection names only and is
    left out. *)
Inductive Request :=
| GET_root
| POST_register (utcnow : datetime) (payload : RegisterRequest.t)
| POST_auth_challenge (utcnow : datetime) (token : str) (payload : ChallengeResponse.t)
| POST_auth_verify (payload : VerifyRequest.t)
| POST_elections (utcnow : datetime) (payload : CreateElectionRequest.t)
| GET_elections
| POST_vote (payload : CastVoteRequest.t)
| POST_vote_attach_tx (payload : AttachTxRequest.t)
| GET_votes (election_id : option str).

Definition handle (r : Request) : M Response :=
  match r with
  | GET_root => root
  | POST_register now p => register_voter now p
  | POST_auth_challenge now tok p => auth_challenge now tok p
  | POST_auth_verify p => auth_verify p
  | POST_elections now p => create_election now p
  | GET_elections => list_elections
  | POST_vote p => cast_vote p
  | POST_vote_attach_tx p => attach_tx p
  | GET_votes e => list_votes e
  end.

(** The store after serving the requests in order. *)
Fixpoint run (rs : list Request) (db : Database) : Database :=
  match rs with
  | [] => db
  | r :: rs' => run rs' (snd (handle r db))
  end.

(** The responses to the requests served in order. *)
Fixpoint responses (rs : list Request) (db : Database) : list (result Response) :=
  match rs with
  | [] => []
  | r :: rs' => fst (handle r db) :: responses rs' (snd (handle r db))
  end.

(** The stores the service can be in, starting from the empty one. *)
Definition reachable (db : Database) : Prop :=
  exists rs, db = run rs empty_db.

(** *** Overlapping requests *)

(** The handlers are plain functions, which the framework runs on
    worker threads: [run] is the service with its requests served one
    after the other, and between two store operations of one request
    the operations of another may take place.  A request in progress is
    the store operations it has still to issue, each of them atomic. *)
Inductive Proc (A : Type) : Type :=
| Return (r : result A)
| Call (X : Type) (op : M X) (k : X -> Proc A).
Arguments Return {A} r.
Arguments Call {A X} op k.

(** The request served to its end without interruption. *)
Fixpoint exec {A} (p : Proc A) (db : Database) : result A * Database :=
  match p with
  | Return r => (r, db)
  | Call op k =>
      match op db with
      | (Ok x, db') => exec (k x) db'
      | (Raised e, db') => (Raised e, db')
      | (Uncaught exc, db') => (Uncaught exc, db')
      end
  end.

(** The next store operation of the request. *)
Definition advance {A} (p : Proc A) (db : Database) : Proc A * Database :=
  match p with
  | Return r => (Return r, db)
  | Call op k =>
      match op db with
      | (Ok x, db') => (k x, db')
      | (Raised e, db') => (Return (Raised e), db')
      | (Uncaught exc, db') => (Return (Uncaught exc), db')
      end
  end.

Definition outcome {A} (p : Proc A) : option (result A) :=
  match p with
  | Return r => Some r
  | Call _ _ => None
  end.

Fixpoint set_nth {A} (i : nat) (x : A) (l : list A) : list A :=
  match i, l with
  | _, [] => []
  | O, _ :: l' => x :: l'
  | S i', y :: l' => y :: set_nth i' x l'
  end.

(** The requests of [pool] served together: the schedule names, step
    by step, the request whose next store operation takes place. *)
Fixpoint interleave (schedule : list nat) (pool : list (Proc Response)) (db : Database)
    : list (Proc Response) * Database :=
  match schedule with
  | [] => (pool, db)
  | i :: schedule' =>
      match nth_error pool i with
      | None => interleave schedule' pool db
      | Some p =>
          let (p', db') := advance p db in
          interleave schedule' (set_nth i p' pool) db'
      end
  end.

(** [cast_vote], operation by operation. *)
Definition cast_vote_calls (payload : CastVoteRequest.t) : Proc Response :=
  Call (find_one db_voterecord (fun d =>
          String.eqb (VoteRecord.election_id (fields d))
                     (CastVoteRequest.election_id payload)
          && String.eqb (VoteRecord.voter_public_key_hash (fields d))
                        (CastVoteRequest.voter_public_key_hash payload)))
    (fun exists_ =>
       match exists_ with
       | Some _ => Return (Raised (HTTP 400 "Voter already cast a vote for this election"))
       | None =>
           let rec :=
             {| VoteRecord.election_id := CastVoteRequest.election_id payload;
                VoteRecord.voter_public_key_hash :=
                  CastVoteRequest.voter_public_key_hash payload;
                VoteRecord.candidate_id := CastVoteRequest.candidate_id payload;
                VoteRecord.zk_proof := or_empty (CastVoteRequest.zk_proof payload);
                VoteRecord.signed_payload := CastVoteRequest.signed_payload payload;
                VoteRecord.tx_hash := None;
                VoteRecord.chain_id := None;
                VoteRecord.contract_address := None |} in
           Call (create_document db_voterecord rec)
                (fun rec_id => Return (Ok (Created rec_id)))
       end).

(* ================================================================= *)
(** ** Vocabulary of the statements *)

(** The queries of the handlers. *)
Definition by_voter_id (v : str) (d : Doc Voter.t) : bool :=
  String.eqb (Voter.voter_id (fields d)) v.

Definition session_of (v : str) (d : Doc AuthSession.t) : bool :=
  String.eqb (AuthSession.voter_id (fields d)) v.

Definition session_time (d : Doc AuthSession.t) : option datetime :=
  AuthSession.created_at (fields d).

Definition vote_of (e h : str) (d : Doc VoteRecord.t) : bool :=
  String.eqb (VoteRecord.election_id (fields d)) e
  && String.eqb (VoteRecord.voter_public_key_hash (fields d)) h.

(** The uniqueness key of a vote record. *)
Definition vote_key (d : Doc VoteRecord.t) : str * str :=
  (VoteRecord.election_id (fields d), VoteRecord.voter_public_key_hash (fields d)).

(** The record [cast_vote] stores. *)
Definition vote_record (p : CastVoteRequest.t) : VoteRecord.t :=
  {| VoteRecord.election_id := CastVoteRequest.election_id p;
     VoteRecord.voter_public_key_hash := CastVoteRequest.voter_public_key_hash p;
     VoteRecord.candidate_id := CastVoteRequest.candidate_id p;
     VoteRecord.zk_proof := or_empty (CastVoteRequest.zk_proof p);
     VoteRecord.signed_payload := CastVoteRequest.signed_payload p;
     VoteRecord.tx_hash := None;
     VoteRecord.chain_id := None;
     VoteRecord.contract_address := None |}.

(** The checks of [auth_verify] on the submitted strings. *)
Definition proof_ok (commitment proof : str) : bool :=
  String.eqb (slice_to 8 commitment) (slice_to 8 proof).

Definition sig_ok (signed_nonce : str) : bool :=
  Nat.leb 64 (len signed_nonce).

(** The store with the nonce of every challenge replaced. *)
Definition set_nonce (g : Doc AuthSession.t -> str) (d : Doc AuthSession.t)
    : Doc AuthSession.t :=
  {| _id := _id d;
     fields :=
       {| AuthSession.voter_id := AuthSession.voter_id (fields d);
          AuthSession.nonce := g d;
          AuthSession.created_at := AuthSession.created_at (fields d);
          AuthSession.verified := AuthSession.verified (fields d) |} |}.

Definition with_nonces (g : Doc AuthSession.t -> str) (db : Database) : Database :=
  coll_set db_authsession (map (set_nonce g) (authsession db)) db.

(** The challenge with its flag set. *)
Definition mark_verified (d : Doc AuthSession.t) : Doc AuthSession.t :=
  {| _id := _id d; fields := set_verified (fields d) |}.

(** The document with the attachment fields of the request. *)
Definition attach (p : AttachTxRequest.t) (d : Doc VoteRecord.t) : Doc VoteRecord.t :=
  {| _id := _id d; fields := set_tx p (fields d) |}.

(** The store after [create_document]. *)
Definition inserted {A} (c : Coll A) (data : A) (db : Database) : Database :=
  snd (create_document c data db).

(** The errors of the handlers under the names of the error taxonomy. *)
Definition DuplicateError : HTTPException := HTTP 400 "Voter already registered".
Definition DuplicateVoteError : HTTPException :=
  HTTP 400 "Voter already cast a vote for this election".
Definition NotFoundError : HTTPException := HTTP 404 "Voter not found".
Definition NoSessionError : HTTPException := HTTP 400 "No active session".
Definition VerificationError : HTTPException := HTTP 401 "Verification failed".

(** Every identifier of the store is below the next one to be given
    out. *)
Definition below {A} (n : ObjectId) (c : collection A) : Prop :=
  Forall (fun d => (_id d < n)%N) c.

Definition ids_fresh (db : Database) : Prop :=
  below (next_oid db) (voter db) /\ below (next_oid db) (authsession db) /\
  below (next_oid db) (election db) /\ below (next_oid db) (voterecord db).

Definition unique_ids {A} (c : collection A) : Prop := NoDup (map _id c).

(** Every stored hash is the hash of the stored key, lower-cased. *)
Definition hashes_consistent (db : Database) : Prop :=
  Forall (fun d => Voter.public_key_hash (fields d)
                   = sha256_hex (lower (Voter.public_key (fields d)))) (voter db).

(** The number of CastVote requests for the election [e] and the voter
    hash [h] that succeed while [rs] is served from [db]. *)
Definition is_vote_for (e h : str) (r : Request) : bool :=
  match r with
  | POST_vote p =>
      String.eqb (CastVoteRequest.election_id p) e
      && String.eqb (CastVoteRequest.voter_public_key_hash p) h
  | _ => false
  end.

Fixpoint votes_accepted (e h : str) (rs : list Request) (db : Database) : nat :=
  match rs with
  | [] => 0
  | r :: rs' =>
      (if is_vote_for e h r && is_ok (fst (handle r db)) then 1 else 0)
      + votes_accepted e h rs' (snd (handle r db))
  end.

(** The invariant of the reachable stores. *)
Definition store_ok (db : Database) : Prop :=
  ids_fresh db /\ unique_ids (authsession db) /\ unique_ids (voterecord db)
  /\ hashes_consistent db /\ NoDup (map vote_key (voterecord db)).

(** Two challenge documents that differ at most in their flag. *)
Definition same_session (x y : Doc AuthSession.t) : Prop :=
  _id y = _id x
  /\ AuthSession.voter_id (fields y) = AuthSession.voter_id (fields x)
  /\ AuthSession.created_at (fields y) = AuthSession.created_at (fields x).

(* ================================================================= *)
(** ** Sample requests *)

Definition ann : RegisterRequest.t :=
  {| RegisterRequest.voter_id := "V1";
     RegisterRequest.name := "Ann";
     RegisterRequest.email := None;
     RegisterRequest.demographics := None;
     RegisterRequest.public_key := "0xAB";
     RegisterRequest.iris_commitment := "c0ffee0011223344" |}.

(** Another voter identifier with Ann's key in lower case. *)
Definition ann_again : RegisterRequest.t :=
  {| RegisterRequest.voter_id := "V2";
     RegisterRequest.name := "Ann";
     RegisterRequest.email := None;
     RegisterRequest.demographics := None;
     RegisterRequest.public_key := "0xab";
     RegisterRequest.iris_commitment := "c0ffee0011223344" |}.

Definition bob : RegisterRequest.t :=
  {| RegisterRequest.voter_id := "V3";
     RegisterRequest.name := "Bob";
     RegisterRequest.email := Some "bob@example.org";
     RegisterRequest.demographics := None;
     RegisterRequest.public_key := "0xCD";
     RegisterRequest.iris_commitment := "deadbeef99887766" |}.

Definition ann_hash : str :=
  "a50350de8cbfbc43ee04e13e8287390194eaf07db29ec24071f88a03ab5a8541".

Definition ann_challenge : ChallengeResponse.t :=
  {| ChallengeResponse.voter_id := "V1" |}.

(** A proof that shares its first eight characters with Ann's
    commitment, and a signed nonce of 64 characters. *)
Definition ann_verify : VerifyRequest.t :=
  {| VerifyRequest.voter_id := "V1";
     VerifyRequest.iris_commitment_proof := "c0ffee00";
     VerifyRequest.signed_nonce :=
       "0123456789abcdef0123456789abcdef0123456789abcdef0123456789abcdef" |}.

Definition prez : CreateElectionRequest.t :=
  {| CreateElectionRequest.title := "Prez 2025";
     CreateElectionRequest.description := None;
     CreateElectionRequest.candidates :=
       [ {| Candidate.id := "c1"; Candidate.name := "One"; Candidate.party := None |};
         {| Candidate.id := "c2"; Candidate.name := "Two"; Candidate.party := None |} ];
     CreateElectionRequest.start_time := None;
     CreateElectionRequest.end_time := None |}.

(** A vote in the election with the first identifier given out. *)
Definition ballot (candidate : str) : CastVoteRequest.t :=
  {| CastVoteRequest.election_id := "000000000000000000000000";
     CastVoteRequest.voter_public_key_hash := ann_hash;
     CastVoteRequest.candidate_id := candidate;
     CastVoteRequest.zk_proof := None;
     CastVoteRequest.signed_payload := None |}.

Definition tx (vote_id hash : str) (address : option str) : AttachTxRequest.t :=
  {| AttachTxRequest.vote_id := vote_id;
     AttachTxRequest.tx_hash := hash;
     AttachTxRequest.contract_address := address;
     AttachTxRequest.chain_id := None |}.

(** An attachment to the first vote with a chain identifier of nine
    bytes. *)
Definition big_chain : AttachTxRequest.t :=
  {| AttachTxRequest.vote_id := "000000000000000000000000";
     AttachTxRequest.tx_hash := "0xbb";
     AttachTxRequest.contract_address := None;
     AttachTxRequest.chain_id := Some (2 ^ 63)%Z |}.

(** Ann registered and challenged twice within one millisecond, at
    20.0 ms and at 20.4 ms. *)
Definition db_same_millisecond : Database :=
  run [ POST_register 10000 ann;
        POST_auth_challenge 20000 "n1" ann_challenge;
        POST_auth_challenge 20400 "n2" ann_challenge ] empty_db.

(** Ann registered and challenged twice. *)
Definition db_challenged : Database :=
  run [ POST_register 10000 ann;
        POST_auth_challenge 20000 "n1" ann_challenge;
        POST_auth_challenge 30000 "n2" ann_challenge ] empty_db.

(** The store with the sample election, which lists c1 and c2. *)
Definition db_prez : Database := run [POST_elections 60000 prez] empty_db.

(** Ann's vote with the transaction 0xaa attached. *)
Definition db_attached : Database :=
  run [ POST_vote (ballot "c1");
        POST_vote_attach_tx (tx "000000000000000000000000" "0xaa" None) ] empty_db.

(** The walk-through of a whole session: register, challenge, verify,
    create an election, vote, vote again. *)
Definition walk_through : list Request :=
  [ POST_register 10000 ann;
    POST_auth_challenge 20000 "n1" ann_challenge;
    POST_auth_verify ann_verify;
    POST_elections 60000 prez;
    POST_vote {| CastVoteRequest.election_id := "000000000000000000000002";
                 CastVoteRequest.voter_public_key_hash := ann_hash;
                 CastVoteRequest.candidate_id := "c1";
                 CastVoteRequest.zk_proof := None;
                 CastVoteRequest.signed_payload := None |};
    POST_vote {| CastVoteRequest.election_id := "000000000000000000000002";
                 CastVoteRequest.voter_public_key_hash := ann_hash;
                 CastVoteRequest.candidate_id := "c2";
                 CastVoteRequest.zk_proof := None;
                 CastVoteRequest.signed_payload := None |} ].

(** The attachment fields of a vote record. *)
Definition attachment (d : Doc VoteRecord.t) : option str * option str * option Z :=
  (VoteRecord.tx_hash (fields d), VoteRecord.contract_address (fields d),
   VoteRecord.chain_id (fields d)).

(* ================================================================= *)
(** ** Vocabulary of the store-wide properties *)

(** The identifiers and the hashes of the registry. *)
Definition voter_ids (db : Database) : list str :=
  map (fun d => Voter.voter_id (fields d)) (voter db).

Definition voter_hashes (db : Database) : list str :=
  map (fun d => Voter.public_key_hash (fields d)) (voter db).

(** The voter identifiers the challenges were issued for. *)
Definition session_voters (db : Database) : list str :=
  map (fun d => AuthSession.voter_id (fields d)) (authsession db).

(** What a challenge is made of, its flag apart. *)
Definition session_core (d : Doc AuthSession.t) : ObjectId * str * str * option datetime :=
  (_id d, AuthSession.voter_id (fields d), AuthSession.nonce (fields d),
   AuthSession.created_at (fields d)).

Definition session_flag (d : Doc AuthSession.t) : bool :=
  AuthSession.verified (fields d).

(** The nonce, the creation time and the flag of a challenge. *)
Definition session_view (d : Doc AuthSession.t) : str * option datetime * bool :=
  (AuthSession.nonce (fields d), AuthSession.created_at (fields d),
   AuthSession.verified (fields d)).

(** What a vote record is made of, its attachment apart. *)
Definition vote_core (d : Doc VoteRecord.t)
    : ObjectId * str * str * str * dict * option str :=
  (_id d, VoteRecord.election_id (fields d), VoteRecord.voter_public_key_hash (fields d),
   VoteRecord.candidate_id (fields d), VoteRecord.zk_proof (fields d),
   VoteRecord.signed_payload (fields d)).

(** The errors the handlers raise. *)
Definition raised_errors : list HTTPException :=
  [ DuplicateError; NotFoundError; NoSessionError; VerificationError;
    DuplicateVoteError; HTTP 400 "Invalid vote id"; HTTP 404 "Vote not found" ].

(** A digit of lower-case hexadecimal. *)
Definition is_lower_hex (c : ascii) : bool :=
  let n := N_of_ascii c in
  ((48 <=? n) && (n <=? 57))%N || ((97 <=? n) && (n <=? 102))%N.

Fixpoint all_chars (f : ascii -> bool) (s : str) : bool :=
  match s with
  | EmptyString => true
  | String c s' => f c && all_chars f s'
  end.

(** The query of [list_votes]. *)
Definition votes_query (election_id : option str) (d : Doc VoteRecord.t) : bool :=
  match election_id with
  | Some (String c e) => String.eqb (VoteRecord.election_id (fields d)) (String c e)
  | _ => true
  end.

(** Most recent identifier first. *)
Definition id_desc {A} (x y : Doc A) : Prop := (_id y <= _id x)%N.

(** The election [create_election] stores. *)
Definition election_of (utcnow : datetime) (p : CreateElectionRequest.t) : Election.t :=
  {| Election.title := CreateElectionRequest.title p;
     Election.description := CreateElectionRequest.description p;
     Election.status := active;
     Election.candidates := CreateElectionRequest.candidates p;
     Election.start_time :=
       Some (match CreateElectionRequest.start_time p with
             | Some t => t
             | None => utcnow
             end);
     Election.end_time := CreateElectionRequest.end_time p |}.

(** A challenge and what it has become: nothing but its flag may have
    changed, and the flag only from false to true. *)
Definition session_kept (x y : Doc AuthSession.t) : Prop :=
  session_core y = session_core x
  /\ (session_flag x = true -> session_flag y = true).

(* ================================================================= *)
(** ** The handlers, case by case *)

Arguments sha256_hex : simpl never.
Arguments ObjectId_str : simpl never.
Arguments ObjectId_of_str : simpl never.

(** Two of the test vectors of the hash standard. *)
Example sha256_hex_abc :
  sha256_hex "abc" = "ba7816bf8f01cfea414140de5dae2223b00361a396177a9cb410ff61f20015ad".
Proof. vm_compute. reflexivity. Qed.

Example sha256_hex_empty :
  sha256_hex "" = "e3b0c44298fc1c149afbf4c8996fb92427ae41e4649b934ca495991b7852b855".
Proof. vm_compute. reflexivity. Qed.

Example sha256_constants :
  List.length SHA256.K = 64
  /\ nth 0 SHA256.K 0%N = 0x428a2f98%N /\ nth 63 SHA256.K 0%N = 0xc67178f2%N
  /\ nth 0 SHA256.H0 0%N = 0x6a09e667%N /\ nth 7 SHA256.H0 0%N = 0x5be0cd19%N.
Proof. vm_compute. repeat split; reflexivity. Qed.

Example ann_hash_eq : sha256_hex (lower "0xAB") = ann_hash.
Proof. vm_compute. reflexivity. Qed.

Example walk_through_responses :
  responses walk_through empty_db
  = [ Ok (Registered "000000000000000000000000" ann_hash);
      Ok (Challenge "n1");
      Ok (Verified ann_hash);
      Ok (Created "000000000000000000000002");
      Ok (Created "000000000000000000000003");
      Raised DuplicateVoteError ].
Proof. vm_compute. reflexivity. Qed.

Lemma register_voter_eq utcnow p db :
  register_voter utcnow p db =
  let pk_hash := sha256_hex (lower (RegisterRequest.public_key p)) in
  match find (fun d => by_voter_id (RegisterRequest.voter_id p) d
                       || String.eqb (Voter.public_key_hash (fields d)) pk_hash)
             (voter db) with
  | Some _ => (Raised DuplicateError, db)
  | None =>
      (Ok (Registered (ObjectId_str (next_oid db)) pk_hash),
       inserted db_voter
         {| Voter.voter_id := RegisterRequest.voter_id p;
            Voter.name := RegisterRequest.name p;
            Voter.email := RegisterRequest.email p;
            Voter.demographics := or_empty (RegisterRequest.demographics p);
            Voter.public_key := RegisterRequest.public_key p;
            Voter.public_key_hash := pk_hash;
            Voter.iris_commitment := RegisterRequest.iris_commitment p;
            Voter.registered_at := Some utcnow |} db)
  end.
Proof.
  unfold register_voter, bind, find_one, by_voter_id; cbn.
  destruct (find _ (voter db)); reflexivity.
Qed.

Lemma auth_challenge_eq utcnow token p db :
  auth_challenge utcnow token p db =
  match find (by_voter_id (ChallengeResponse.voter_id p)) (voter db) with
  | None => (Raised NotFoundError, db)
  | Some _ =>
      (Ok (Challenge token),
       inserted db_authsession
         {| AuthSession.voter_id := ChallengeResponse.voter_id p;
            AuthSession.nonce := token;
            AuthSession.created_at := Some utcnow;
            AuthSession.verified := false |} db)
  end.
Proof.
  unfold auth_challenge, bind, find_one, by_voter_id; cbn.
  fold (by_voter_id (ChallengeResponse.voter_id p)).
  destruct (find _ (voter db)); reflexivity.
Qed.

Lemma auth_verify_eq p db :
  auth_verify p db =
  match find (by_voter_id (VerifyRequest.voter_id p)) (voter db) with
  | None => (Raised NotFoundError, db)
  | Some voter =>
      match filter (session_of (VerifyRequest.voter_id p)) (authsession db) with
      | [] => (Raised NoSessionError, db)
      | d :: l =>
          let session := first_max session_time d l in
          if proof_ok (Voter.iris_commitment (fields voter))
                      (VerifyRequest.iris_commitment_proof p)
             && sig_ok (VerifyRequest.signed_nonce p)
          then
            (Ok (Verified (Voter.public_key_hash (fields voter))),
             coll_set db_authsession
               (fst (update_first (fun x => N.eqb (_id x) (_id session)) set_verified
                       (authsession db))) db)
          else (Raised VerificationError, db)
      end
  end.
Proof.
  unfold auth_verify, bind, find_one, find_one_desc, update_one; cbn.
  fold (by_voter_id (VerifyRequest.voter_id p)).
  fold (session_of (VerifyRequest.voter_id p)).
  destruct (find _ (voter db)) as [voter|]; [|reflexivity].
  destruct (filter _ (authsession db)) as [|d l]; [reflexivity|].
  fold session_time. cbn.
  unfold proof_ok, sig_ok.
  destruct (_ && _); cbn; [|reflexivity].
  destruct (update_first _ _ _); reflexivity.
Qed.

Lemma cast_vote_eq p db :
  cast_vote p db =
  match find (vote_of (CastVoteRequest.election_id p)
                      (CastVoteRequest.voter_public_key_hash p)) (voterecord db) with
  | Some _ => (Raised DuplicateVoteError, db)
  | None =>
      (Ok (Created (ObjectId_str (next_oid db))),
       inserted db_voterecord (vote_record p) db)
  end.
Proof.
  unfold cast_vote, bind, find_one; cbn.
  fold (vote_of (CastVoteRequest.election_id p) (CastVoteRequest.voter_public_key_hash p)).
  destruct (find _ (voterecord db)); reflexivity.
Qed.

Lemma attach_tx_eq p db :
  attach_tx p db =
  match ObjectId_of_str (AttachTxRequest.vote_id p) with
  | None => (Raised (HTTP 400 "Invalid vote id"), db)
  | Some oid =>
      if forallb fits_int64 (set_ints p) then
        let r := update_first (fun d => N.eqb (_id d) oid) (set_tx p) (voterecord db) in
        (if snd r then Ok Attached else Raised (HTTP 404 "Vote not found"),
         coll_set db_voterecord (fst r) db)
      else (Uncaught "OverflowError", db)
  end.
Proof.
  unfold attach_tx, bind, update_one; cbn.
  destruct (ObjectId_of_str _); [|reflexivity].
  destruct (forallb fits_int64 (set_ints p)); [|reflexivity].
  destruct (update_first _ _ _) as [l [|]]; reflexivity.
Qed.

(* ================================================================= *)
(** ** Lists of documents *)

Local Open Scope list_scope.

Lemma find_none_iff {A} (q : A -> bool) (l : list A) :
  find q l = None <-> forall x, In x l -> q x = false.
Proof.
  split; [apply find_none|].
  induction l as [|a l IH]; intros H; cbn; [reflexivity|].
  rewrite (H a (or_introl eq_refl)). apply IH. intros x Hx. apply H. now right.
Qed.

Lemma find_is_some {A} (q : A -> bool) (l : list A) (x : A) :
  In x l -> q x = true -> exists y, find q l = Some y.
Proof.
  intros Hin Hq. destruct (find q l) as [y|] eqn:E; [now exists y|].
  rewrite (find_none _ _ E _ Hin) in Hq. discriminate.
Qed.

Lemma vote_of_key e h d : vote_of e h d = true <-> vote_key d = (e, h).
Proof.
  unfold vote_of, vote_key. rewrite andb_true_iff, !String.eqb_eq.
  split; [intros [-> ->]; reflexivity|intros H; inversion H; auto].
Qed.

Section UpdateFirst.
Context {A : Type} (q : Doc A -> bool) (upd : A -> A).

Lemma update_first_ids l : map _id (fst (update_first q upd l)) = map _id l.
Proof.
  induction l as [|d l IH]; cbn; [reflexivity|].
  destruct (q d); cbn; [reflexivity|].
  destruct (update_first q upd l) as [r hit]; cbn in *. now rewrite IH.
Qed.

(** A projection that the update preserves has the same values after
    it. *)
Lemma update_first_map {B} (f : Doc A -> B) l :
  (forall d, f {| _id := _id d; fields := upd (fields d) |} = f d) ->
  map f (fst (update_first q upd l)) = map f l.
Proof.
  intros Hf. induction l as [|d l IH]; cbn; [reflexivity|].
  destruct (q d); cbn; [now rewrite Hf|].
  destruct (update_first q upd l) as [r hit]; cbn in *. now rewrite IH.
Qed.

(** The update rewrites the first match and nothing else. *)
Lemma update_first_hit l1 d l2 :
  (forall x, In x l1 -> q x = false) -> q d = true ->
  update_first q upd (l1 ++ d :: l2)
  = (l1 ++ {| _id := _id d; fields := upd (fields d) |} :: l2, true).
Proof.
  induction l1 as [|a l1 IH]; intros H Hd; cbn.
  - now rewrite Hd.
  - rewrite (H a (or_introl eq_refl)), IH; [reflexivity| |exact Hd].
    intros x Hx. apply H. now right.
Qed.

Lemma update_first_found l d :
  find q l = Some d ->
  exists l1 l2, l = l1 ++ d :: l2 /\ (forall x, In x l1 -> q x = false) /\ q d = true.
Proof.
  induction l as [|a l IH]; cbn; [discriminate|].
  destruct (q a) eqn:Ea.
  - intros [= <-]. exists [], l. repeat split; [intros x []|exact Ea].
  - intros H. destruct (IH H) as (l1 & l2 & -> & Hl1 & Hd).
    exists (a :: l1), l2. repeat split; [|exact Hd].
    intros x [<-|Hx]; [exact Ea|now apply Hl1].
Qed.

End UpdateFirst.

(** *** The order of creation times *)

Lemma date_leb_trans a b c :
  date_leb a b = true -> date_leb b c = true -> date_leb a c = true.
Proof.
  destruct a, b, c; cbn; try congruence; rewrite !Z.leb_le; lia.
Qed.

Lemma date_leb_total a b : date_leb a b = false -> date_leb b a = true.
Proof.
  destruct a, b; cbn; try congruence.
  rewrite Z.leb_gt, Z.leb_le. lia.
Qed.

Lemma date_ltb_leb_trans a b c :
  date_leb b a = false -> date_leb b c = true -> date_leb c a = false.
Proof.
  destruct a, b, c; cbn; try congruence.
  rewrite !Z.leb_gt, Z.leb_le. lia.
Qed.

Section FirstMax.
Context {A : Type} (key : A -> option datetime).

(** [first_max] returns either the running best, which then no later
    element exceeds, or an element of the list that exceeds everything
    before it and that nothing after it exceeds. *)
Lemma first_max_spec l : forall best,
  let m := first_max key best l in
  (m = best /\ forall x, In x l -> date_leb (key x) (key best) = true)
  \/ (exists l1 l2, l = l1 ++ m :: l2
      /\ date_leb (key m) (key best) = false
      /\ (forall x, In x l1 -> date_leb (key m) (key x) = false)
      /\ (forall x, In x l2 -> date_leb (key x) (key m) = true)).
Proof.
  induction l as [|a l IH]; intros best; cbn.
  - left. split; [reflexivity|intros x []].
  - destruct (date_leb (key a) (key best)) eqn:Ea.
    + destruct (IH best) as [[Hm Hall]|(l1 & l2 & Hl & Hb & H1 & H2)].
      * left. split; [exact Hm|]. intros x [<-|Hx]; [exact Ea|now apply Hall].
      * right. exists (a :: l1), l2. repeat split.
        -- cbn. now f_equal.
        -- exact Hb.
        -- intros x [<-|Hx]; [|now apply H1].
           destruct (date_leb (key (first_max key best l)) (key a)) eqn:E; [|reflexivity].
           rewrite (date_leb_trans _ _ _ E Ea) in Hb. discriminate.
        -- exact H2.
    + destruct (IH a) as [[Hm Hall]|(l1 & l2 & Hl & Hb & H1 & H2)].
      * right. exists [], l. rewrite Hm. repeat split.
        -- exact Ea.
        -- intros x [].
        -- exact Hall.
      * right. exists (a :: l1), l2. repeat split.
        -- cbn. now f_equal.
        -- apply (date_ltb_leb_trans _ _ _ Ea). now apply date_leb_total.
        -- intros x [<-|Hx]; [exact Hb|now apply H1].
        -- exact H2.
Qed.

(** On a non-empty list: a split around the chosen element. *)
Lemma first_max_split d l :
  let m := first_max key d l in
  exists l1 l2, d :: l = l1 ++ m :: l2
    /\ (forall x, In x l1 -> date_leb (key m) (key x) = false)
    /\ (forall x, In x l2 -> date_leb (key x) (key m) = true).
Proof.
  cbn. destruct (first_max_spec l d) as [[Hm Hall]|(l1 & l2 & Hl & Hb & H1 & H2)].
  - exists [], l. rewrite Hm. repeat split; [intros x []|exact Hall].
  - exists (d :: l1), l2. repeat split.
    + cbn. now f_equal.
    + intros x [<-|Hx]; [exact Hb|now apply H1].
    + exact H2.
Qed.
End FirstMax.

(** A split of a filtered list comes from a split of the list. *)
Lemma filter_split {A} (q : A -> bool) (l : list A) : forall l1 m l2,
  filter q l = l1 ++ m :: l2 ->
  exists k1 k2, l = k1 ++ m :: k2 /\ filter q k1 = l1 /\ filter q k2 = l2 /\ q m = true.
Proof.
  induction l as [|a l IH]; intros l1 m l2; cbn.
  - destruct l1; discriminate.
  - destruct (q a) eqn:Ea.
    + destruct l1 as [|b l1]; cbn.
      * intros [= -> Hl]. exists [], l. cbn. repeat split; assumption.
      * intros [= -> Hl]. destruct (IH _ _ _ Hl) as (k1 & k2 & -> & H1 & H2 & Hm).
        exists (b :: k1), k2. cbn. rewrite Ea, H1. repeat split; assumption.
    + intros Hl. destruct (IH _ _ _ Hl) as (k1 & k2 & -> & H1 & H2 & Hm).
      exists (a :: k1), k2. cbn. rewrite Ea. repeat split; assumption.
Qed.

(* ================================================================= *)
(** ** What one request does to each collection *)

Ltac split_handler r :=
  destruct r as [|utcnow p|utcnow token p|p|utcnow p| |p|p|e]; cbn [handle];
  [ | rewrite register_voter_eq | rewrite auth_challenge_eq
    | rewrite auth_verify_eq | | | rewrite cast_vote_eq | rewrite attach_tx_eq | ];
  cbv zeta.

Ltac split_match :=
  repeat match goal with
         | |- context [match ?x with _ => _ end] => destruct x eqn:?
         end.

(** Voter documents are never removed or rewritten. *)
Lemma handle_voter_grows r db :
  exists extra, voter (snd (handle r db)) = voter db ++ extra.
Proof.
  split_handler r; split_match; cbn;
    try (exists []; now rewrite app_nil_r); eexists; reflexivity.
Qed.

Lemma run_voter_grows rs : forall db d, In d (voter db) -> In d (voter (run rs db)).
Proof.
  induction rs as [|r rs IH]; intros db d Hd; cbn; [exact Hd|].
  apply IH. destruct (handle_voter_grows r db) as [extra ->].
  apply in_or_app. now left.
Qed.

(** Vote records are never removed, and their keys never change. *)
Lemma handle_vote_keys r db :
  exists extra,
    map vote_key (voterecord (snd (handle r db))) = map vote_key (voterecord db) ++ extra.
Proof.
  split_handler r; split_match; cbn;
    try (exists []; rewrite app_nil_r;
         first [reflexivity | now apply update_first_map]).
  rewrite map_app. eexists; reflexivity.
Qed.

Lemma run_vote_keys rs : forall db k,
  In k (map vote_key (voterecord db)) -> In k (map vote_key (voterecord (run rs db))).
Proof.
  induction rs as [|r rs IH]; intros db k Hk; cbn; [exact Hk|].
  apply IH. destruct (handle_vote_keys r db) as [extra ->].
  apply in_or_app. now left.
Qed.

Lemma NoDup_snoc {A} (l : list A) (x : A) : NoDup l -> ~ In x l -> NoDup (l ++ [x]).
Proof.
  intros Hl Hx. apply NoDup_rev in Hl. rewrite <- (rev_involutive (l ++ [x])).
  apply NoDup_rev. rewrite rev_app_distr. cbn. constructor; [|exact Hl].
  now rewrite <- in_rev.
Qed.

(** The keys of the ballot ledger stay distinct. *)
Lemma handle_vote_keys_distinct r db :
  NoDup (map vote_key (voterecord db)) ->
  NoDup (map vote_key (voterecord (snd (handle r db)))).
Proof.
  intros H. split_handler r; split_match; cbn; try exact H;
    try (rewrite update_first_map; [exact H|reflexivity]).
  - rewrite map_app. cbn. apply NoDup_snoc; [exact H|].
    intros Hin. apply in_map_iff in Hin. destruct Hin as (d & Hk & Hd).
    match goal with E : find _ _ = None |- _ => pose proof (find_none _ _ E _ Hd) as Hq end.
    assert (vote_of (CastVoteRequest.election_id p)
                    (CastVoteRequest.voter_public_key_hash p) d = true) as Ht
      by (apply vote_of_key; exact Hk).
    congruence.
Qed.

Lemma run_vote_keys_distinct rs : forall db,
  NoDup (map vote_key (voterecord db)) ->
  NoDup (map vote_key (voterecord (run rs db))).
Proof.
  induction rs as [|r rs IH]; intros db H; cbn; [exact H|].
  apply IH, handle_vote_keys_distinct, H.
Qed.

(** *** Identifiers *)

Lemma below_mono {A} n m (c : collection A) : (n <= m)%N -> below n c -> below m c.
Proof.
  intros Hnm H. unfold below in *. rewrite Forall_forall in *.
  intros d Hd. specialize (H d Hd). lia.
Qed.

Lemma below_snoc {A} n (c : collection A) (x : A) :
  below n c -> below (n + 1)%N (c ++ [{| _id := n; fields := x |}]).
Proof.
  intros H. unfold below in *. rewrite Forall_forall in *.
  intros d Hd. apply in_app_or in Hd. destruct Hd as [Hd|[<-|[]]]; cbn.
  - specialize (H d Hd). lia.
  - lia.
Qed.

Lemma below_update {A} n (q : Doc A -> bool) (upd : A -> A) (c : collection A) :
  below n c -> below n (fst (update_first q upd c)).
Proof.
  unfold below. rewrite !Forall_forall. intros H d Hd.
  assert (In (_id d) (map _id (fst (update_first q upd c)))) as Hi by now apply in_map.
  rewrite update_first_ids in Hi. apply in_map_iff in Hi.
  destruct Hi as (d' & <- & Hd'). now apply H.
Qed.

Lemma handle_ids_fresh r db : ids_fresh db -> ids_fresh (snd (handle r db)).
Proof.
  unfold ids_fresh. intros (Hv & Hs & He & Hr).
  assert (next_oid db <= next_oid db + 1)%N as Hle by lia.
  split_handler r; split_match; cbn; repeat split;
    solve [ assumption | now apply below_snoc | now apply (below_mono Hle)
          | now apply below_update ].
Qed.

Lemma unique_ids_snoc {A} n (c : collection A) (x : A) :
  below n c -> unique_ids c -> unique_ids (c ++ [{| _id := n; fields := x |}]).
Proof.
  unfold unique_ids, below. intros Hb Hu. rewrite map_app. cbn.
  apply NoDup_snoc; [exact Hu|].
  intros Hin. apply in_map_iff in Hin. destruct Hin as (d & Hid & Hd).
  rewrite Forall_forall in Hb. specialize (Hb d Hd). lia.
Qed.

Lemma handle_unique_sessions r db :
  ids_fresh db -> unique_ids (authsession db) ->
  unique_ids (authsession (snd (handle r db))).
Proof.
  intros (Hv & Hs & He & Hr) Hu.
  split_handler r; split_match; cbn; try exact Hu;
    try (unfold unique_ids; now rewrite update_first_ids).
  now apply unique_ids_snoc.
Qed.

Lemma handle_unique_votes r db :
  ids_fresh db -> unique_ids (voterecord db) ->
  unique_ids (voterecord (snd (handle r db))).
Proof.
  intros (Hv & Hs & He & Hr) Hu.
  split_handler r; split_match; cbn; try exact Hu;
    try (unfold unique_ids; now rewrite update_first_ids).
  now apply unique_ids_snoc.
Qed.

Lemma handle_hashes_consistent r db :
  hashes_consistent db -> hashes_consistent (snd (handle r db)).
Proof.
  unfold hashes_consistent. intros H.
  split_handler r; split_match; cbn; try exact H.
  apply Forall_app. split; [exact H|]. constructor; [reflexivity|constructor].
Qed.

Lemma empty_db_ok : store_ok empty_db.
Proof.
  unfold store_ok, ids_fresh, below, unique_ids, hashes_consistent; cbn.
  repeat split; constructor.
Qed.

Lemma handle_ok r db : store_ok db -> store_ok (snd (handle r db)).
Proof.
  intros (Hf & Hs & Hv & Hh & Hk). repeat split.
  - now apply handle_ids_fresh.
  - now apply handle_ids_fresh.
  - now apply handle_ids_fresh.
  - now apply handle_ids_fresh.
  - now apply handle_unique_sessions.
  - now apply handle_unique_votes.
  - now apply handle_hashes_consistent.
  - now apply handle_vote_keys_distinct.
Qed.

Lemma run_ok rs : forall db, store_ok db -> store_ok (run rs db).
Proof.
  induction rs as [|r rs IH]; intros db H; cbn; [exact H|].
  apply IH, handle_ok, H.
Qed.

Lemma reachable_ok db : reachable db -> store_ok db.
Proof. intros [rs ->]. apply run_ok, empty_db_ok. Qed.

(* ================================================================= *)
(** ** Registration *)

(** C10: when Register fails, it fails as a duplicate and the store is
    the one it started from: no voter document is created or changed. *)
Theorem C10_failed_register_leaves_store utcnow p db e :
  fst (register_voter utcnow p db) = Raised e ->
  e = DuplicateError /\ snd (register_voter utcnow p db) = db.
Proof.
  rewrite register_voter_eq. cbv zeta.
  destruct (find _ (voter db)); cbn; [|discriminate].
  intros [= <-]. split; reflexivity.
Qed.

Lemma C10_failed_register_leaves_store_witness :
  let db := run [POST_register 10000 ann] empty_db in
  DuplicateError = DuplicateError /\ snd (register_voter 11000 ann_again db) = db.
Proof.
  apply (@C10_failed_register_leaves_store 11 ann_again
           (run [POST_register 10000 ann] empty_db) DuplicateError).
  vm_compute. reflexivity.
Defined.

(** The voter document [register_voter] stores. *)
Lemma register_voter_ok utcnow p db r db' :
  register_voter utcnow p db = (Ok r, db') ->
  find (fun d => by_voter_id (RegisterRequest.voter_id p) d
                 || String.eqb (Voter.public_key_hash (fields d))
                      (sha256_hex (lower (RegisterRequest.public_key p))))
       (voter db) = None
  /\ r = Registered (ObjectId_str (next_oid db))
                    (sha256_hex (lower (RegisterRequest.public_key p)))
  /\ exists v,
       voter db' = voter db ++ [{| _id := next_oid db; fields := v |}]
       /\ Voter.voter_id v = RegisterRequest.voter_id p
       /\ Voter.public_key v = RegisterRequest.public_key p
       /\ Voter.public_key_hash v = sha256_hex (lower (RegisterRequest.public_key p))
       /\ Voter.iris_commitment v = RegisterRequest.iris_commitment p.
Proof.
  rewrite register_voter_eq. cbv zeta.
  destruct (find _ (voter db)); [discriminate|].
  intros [= <- <-]. repeat split. eexists. cbn. repeat split.
Qed.

(** C3: once a registration has succeeded, every later Register with
    the same voter identifier, or with a public key equal to the
    registered one up to letter case, fails as a duplicate, whatever was
    served in between; and a Register whose voter identifier and
    lower-cased public key are both new to a reachable store succeeds,
    SHA-256 not colliding on the keys at hand. *)
Theorem C3_register_duplicates utcnow p db :
  (forall r db', register_voter utcnow p db = (Ok r, db') ->
     forall rs utcnow' p',
       RegisterRequest.voter_id p' = RegisterRequest.voter_id p
       \/ lower (RegisterRequest.public_key p') = lower (RegisterRequest.public_key p) ->
       register_voter utcnow' p' (run rs db') = (Raised DuplicateError, run rs db'))
  /\
  (reachable db ->
   (forall d, In d (voter db) ->
      Voter.voter_id (fields d) <> RegisterRequest.voter_id p) ->
   (forall d, In d (voter db) ->
      lower (Voter.public_key (fields d)) <> lower (RegisterRequest.public_key p)) ->
   (forall d, In d (voter db) ->
      sha256_hex (lower (Voter.public_key (fields d)))
      = sha256_hex (lower (RegisterRequest.public_key p)) ->
      lower (Voter.public_key (fields d)) = lower (RegisterRequest.public_key p)) ->
   exists db',
     register_voter utcnow p db
     = (Ok (Registered (ObjectId_str (next_oid db))
                       (sha256_hex (lower (RegisterRequest.public_key p)))), db')
     /\ exists v, voter db' = voter db ++ [{| _id := next_oid db; fields := v |}]
                  /\ Voter.voter_id v = RegisterRequest.voter_id p
                  /\ Voter.public_key v = RegisterRequest.public_key p).
Proof.
  split.
  - intros r db' Hreg rs utcnow' p' Hsame.
    destruct (register_voter_ok _ _ _ Hreg) as (_ & _ & v & Hv & Hid & Hpk & Hh & _).
    assert (In {| _id := next_oid db; fields := v |} (voter (run rs db'))) as Hin.
    { apply run_voter_grows. rewrite Hv. apply in_or_app. right. now left. }
    rewrite register_voter_eq. cbv zeta.
    match goal with |- context [find ?q ?l] =>
      destruct (@find_is_some _ q l _ Hin) as [y ->]; [|reflexivity] end.
    cbn. unfold by_voter_id. cbn. rewrite Hid, Hh.
    destruct Hsame as [-> | ->].
    + now rewrite String.eqb_refl.
    + rewrite (String.eqb_refl (sha256_hex _)). apply orb_true_r.
  - intros Hreach Hid Hpk Hcoll.
    destruct (reachable_ok Hreach) as (_ & _ & _ & Hh & _).
    unfold hashes_consistent in Hh. rewrite Forall_forall in Hh.
    rewrite register_voter_eq. cbv zeta.
    match goal with |- context [find ?q ?l] =>
      assert (find q l = None) as -> end.
    { apply find_none_iff. intros d Hd. apply orb_false_iff. split.
      - unfold by_voter_id. apply String.eqb_neq. now apply Hid.
      - apply String.eqb_neq. rewrite (Hh d Hd). intros E.
        apply (Hpk d Hd). now apply Hcoll. }
    eexists. split; [reflexivity|]. eexists. cbn. repeat split.
Qed.

Lemma C3_register_duplicates_witness :
  register_voter 40000 ann_again
    (run [POST_auth_challenge 20000 "n1" ann_challenge] (snd (register_voter 10000 ann empty_db)))
  = (Raised DuplicateError,
     run [POST_auth_challenge 20000 "n1" ann_challenge] (snd (register_voter 10000 ann empty_db)))
  /\ exists db',
       register_voter 50000 bob db_challenged
       = (Ok (Registered (ObjectId_str (next_oid db_challenged))
                         (sha256_hex (lower (RegisterRequest.public_key bob)))), db')
       /\ exists v,
            voter db' = voter db_challenged
                        ++ [{| _id := next_oid db_challenged; fields := v |}]
            /\ Voter.voter_id v = RegisterRequest.voter_id bob
            /\ Voter.public_key v = RegisterRequest.public_key bob.
Proof.
  split.
  - apply (proj1 (C3_register_duplicates 10000 ann empty_db)
             (Registered "000000000000000000000000" ann_hash)
             (snd (register_voter 10000 ann empty_db))).
    + vm_compute. reflexivity.
    + right. vm_compute. reflexivity.
  - apply (proj2 (C3_register_duplicates 50000 bob db_challenged)).
    + eexists. reflexivity.
    + intros d Hd. vm_compute in Hd. destruct Hd as [<-|[]]. vm_compute. discriminate.
    + intros d Hd. vm_compute in Hd. destruct Hd as [<-|[]]. vm_compute. discriminate.
    + intros d Hd. vm_compute in Hd. destruct Hd as [<-|[]]. vm_compute. discriminate.
Defined.

(* ================================================================= *)
(** ** The ballot ledger: one vote per voter and election *)

Lemma cast_vote_ok p db r db' :
  cast_vote p db = (Ok r, db') ->
  find (vote_of (CastVoteRequest.election_id p)
                (CastVoteRequest.voter_public_key_hash p)) (voterecord db) = None
  /\ r = Created (ObjectId_str (next_oid db))
  /\ voterecord db' = voterecord db ++ [{| _id := next_oid db; fields := vote_record p |}].
Proof.
  rewrite cast_vote_eq. destruct (find _ (voterecord db)); [discriminate|].
  intros [= <- <-]. repeat split.
Qed.

(** With a vote for the pair in the ledger, no further one is accepted. *)
Lemma votes_accepted_after e h rs : forall db,
  In (e, h) (map vote_key (voterecord db)) -> votes_accepted e h rs db = 0.
Proof.
  induction rs as [|r rs IH]; intros db Hin; cbn [votes_accepted]; [reflexivity|].
  rewrite IH.
  - destruct (is_vote_for e h r) eqn:Er; [|reflexivity].
    destruct r; try discriminate. cbn in Er.
    apply andb_true_iff in Er. destruct Er as [He Hh].
    apply String.eqb_eq in He, Hh. subst e h.
    apply in_map_iff in Hin. destruct Hin as (d & Hk & Hd).
    cbn [handle]. rewrite cast_vote_eq.
    destruct (find_is_some _ _ _ Hd (proj2 (vote_of_key _ _ _) Hk)) as [y ->].
    reflexivity.
  - destruct (handle_vote_keys r db) as [extra ->]. apply in_or_app. now left.
Qed.

(** Served one after the other, at most one CastVote for a given
    election and voter hash succeeds, and the ballot ledger never holds
    two vote records with the same election and the same voter hash;
    once a CastVote has succeeded, every later CastVote for the same
    pair fails as a duplicate vote and leaves the store as it is. *)
Lemma votes_served_in_turn_are_unique :
  (forall e h rs db, votes_accepted e h rs db <= 1)
  /\
  (forall rs, NoDup (map vote_key (voterecord (run rs empty_db))))
  /\
  (forall db p r db',
     cast_vote p db = (Ok r, db') ->
     forall rs p',
       CastVoteRequest.election_id p' = CastVoteRequest.election_id p ->
       CastVoteRequest.voter_public_key_hash p'
       = CastVoteRequest.voter_public_key_hash p ->
       cast_vote p' (run rs db') = (Raised DuplicateVoteError, run rs db')).
Proof.
  split; [|split].
  - intros e h rs. induction rs as [|r rs IH]; intros db; cbn [votes_accepted]; [lia|].
    destruct (is_vote_for e h r && is_ok (fst (handle r db))) eqn:Eacc;
      [|specialize (IH (snd (handle r db))); lia].
    apply andb_true_iff in Eacc. destruct Eacc as [Er Hok].
    destruct r; try discriminate. cbn in Er.
    apply andb_true_iff in Er. destruct Er as [He Hh].
    apply String.eqb_eq in He, Hh. subst e h.
    rewrite votes_accepted_after; [lia|].
    cbn [handle] in *. destruct (cast_vote payload db) as [[res|err|exc] db'] eqn:Ecast;
      try discriminate.
    destruct (cast_vote_ok _ _ Ecast) as (_ & _ & Hv). cbn [snd].
    rewrite Hv, map_app. apply in_or_app. right. now left.
  - intros rs. apply run_vote_keys_distinct. constructor.
  - intros db p r db' Hcast rs p' He Hh.
    destruct (cast_vote_ok _ _ Hcast) as (_ & _ & Hv).
    assert (In (CastVoteRequest.election_id p, CastVoteRequest.voter_public_key_hash p)
               (map vote_key (voterecord (run rs db')))) as Hin.
    { apply run_vote_keys. rewrite Hv, map_app. apply in_or_app. right. now left. }
    apply in_map_iff in Hin. destruct Hin as (d & Hk & Hd).
    rewrite cast_vote_eq, He, Hh.
    destruct (find_is_some _ _ _ Hd (proj2 (vote_of_key _ _ _) Hk)) as [y ->].
    reflexivity.
Qed.

(** The operations of [cast_vote_calls], issued without interruption,
    are [cast_vote]. *)
Lemma cast_vote_calls_exec p db : exec (cast_vote_calls p) db = cast_vote p db.
Proof.
  rewrite cast_vote_eq. cbn [cast_vote_calls exec find_one coll_get db_voterecord].
  fold (vote_of (CastVoteRequest.election_id p) (CastVoteRequest.voter_public_key_hash p)).
  destruct (find _ (voterecord db)); reflexivity.
Qed.

(** Two requests for the same pair, the second served only when the
    first has ended: the second is refused. *)
Example votes_in_turn_second_refused :
  let served := interleave [0; 0; 1; 1]
                  [cast_vote_calls (ballot "c1"); cast_vote_calls (ballot "c2")] empty_db in
  map outcome (fst served)
  = [Some (Ok (Created "000000000000000000000000")); Some (Raised DuplicateVoteError)]
  /\ map vote_key (voterecord (snd served)) = [("000000000000000000000000", ann_hash)].
Proof. vm_compute. split; reflexivity. Qed.

(** C1: two CastVote requests for the same election and the same
    voter hash that overlap, each looking the pair up before the other
    has inserted its record, both succeed, and the ballot ledger then
    holds two vote records with that pair: the lookup and the insertion
    of [cast_vote] are two store operations, not one. *)
Theorem C1_overlapping_votes_are_both_recorded :
  let served := interleave [0; 1; 0; 1]
                  [cast_vote_calls (ballot "c1"); cast_vote_calls (ballot "c2")] empty_db in
  map outcome (fst served)
  = [Some (Ok (Created "000000000000000000000000"));
     Some (Ok (Created "000000000000000000000001"))]
  /\ map vote_key (voterecord (snd served))
     = [("000000000000000000000000", ann_hash); ("000000000000000000000000", ann_hash)]
  /\ map (fun d => VoteRecord.candidate_id (fields d)) (voterecord (snd served))
     = ["c1"; "c2"]
  /\ ~ NoDup (map vote_key (voterecord (snd served))).
Proof.
  vm_compute. repeat split; try reflexivity.
  intros H. inversion H as [|? ? Hin _]. apply Hin. now left.
Qed.

(* ================================================================= *)
(** ** The session handshake *)

(** C7: Verify for a voter identifier that names no registered voter
    fails with 404 "Voter not found"; for a registered voter for whom the
    store holds no challenge it fails with 400 "No active session"; both
    leave the store, and so every challenge's flag, as they were. *)
Theorem C7_verify_unknown_voter_or_no_session p db :
  ((forall d, In d (voter db) ->
      Voter.voter_id (fields d) <> VerifyRequest.voter_id p) ->
   auth_verify p db = (Raised NotFoundError, db))
  /\
  ((exists d, In d (voter db) /\ Voter.voter_id (fields d) = VerifyRequest.voter_id p) ->
   (forall s, In s (authsession db) ->
      AuthSession.voter_id (fields s) <> VerifyRequest.voter_id p) ->
   auth_verify p db = (Raised NoSessionError, db)).
Proof.
  split.
  - intros Hnone. rewrite auth_verify_eq.
    assert (find (by_voter_id (VerifyRequest.voter_id p)) (voter db) = None) as ->;
      [|reflexivity].
    apply find_none_iff. intros d Hd. apply String.eqb_neq. now apply Hnone.
  - intros (d & Hd & Hid) Hnone. rewrite auth_verify_eq.
    destruct (find_is_some (by_voter_id (VerifyRequest.voter_id p)) _ _ Hd) as [v ->].
    { now apply String.eqb_eq. }
    assert (filter (session_of (VerifyRequest.voter_id p)) (authsession db) = []) as ->;
      [|reflexivity].
    destruct (filter _ _) as [|s l] eqn:E; [reflexivity|].
    assert (In s (filter (session_of (VerifyRequest.voter_id p)) (authsession db))) as Hs
      by (rewrite E; now left).
    apply filter_In in Hs. destruct Hs as [Hs Hq].
    apply String.eqb_eq in Hq. now elim (Hnone s Hs).
Qed.

Lemma C7_verify_unknown_voter_or_no_session_witness :
  auth_verify ann_verify empty_db = (Raised NotFoundError, empty_db)
  /\ auth_verify ann_verify (run [POST_register 10000 ann] empty_db)
     = (Raised NoSessionError, run [POST_register 10000 ann] empty_db).
Proof.
  split.
  - apply (proj1 (C7_verify_unknown_voter_or_no_session ann_verify empty_db)).
    intros d [].
  - apply (proj2 (C7_verify_unknown_voter_or_no_session ann_verify
                    (run [POST_register 10000 ann] empty_db))).
    + eexists. split; [left; reflexivity|reflexivity].
    + intros s [].
Defined.

Lemma filter_map_comm {A B} (q : B -> bool) (f : A -> B) (l : list A) :
  filter q (map f l) = map f (filter (fun x => q (f x)) l).
Proof.
  induction l as [|a l IH]; cbn; [reflexivity|].
  destruct (q (f a)); cbn; now rewrite IH.
Qed.

(** C9: for a registered voter with at least one challenge, Verify
    succeeds exactly when the first eight characters of the proof are
    the first eight characters of the stored iris commitment and the
    signed nonce has at least 64 characters; and whatever nonces the
    challenges carry, the answer is the same. *)
Theorem C9_verify_accepts_by_prefix_and_length p db v s :
  find (by_voter_id (VerifyRequest.voter_id p)) (voter db) = Some v ->
  In s (authsession db) ->
  AuthSession.voter_id (fields s) = VerifyRequest.voter_id p ->
  (is_ok (fst (auth_verify p db)) = true
   <-> slice_to 8 (VerifyRequest.iris_commitment_proof p)
       = slice_to 8 (Voter.iris_commitment (fields v))
       /\ 64 <= len (VerifyRequest.signed_nonce p))
  /\ forall g, fst (auth_verify p (with_nonces g db)) = fst (auth_verify p db).
Proof.
  intros Hv Hs Hid. split.
  - rewrite auth_verify_eq, Hv.
    destruct (filter _ (authsession db)) as [|d l] eqn:E.
    { assert (In s []) as []. rewrite <- E. apply filter_In. split; [exact Hs|].
      now apply String.eqb_eq. }
    cbv zeta.
    assert (proof_ok (Voter.iris_commitment (fields v))
                     (VerifyRequest.iris_commitment_proof p)
            && sig_ok (VerifyRequest.signed_nonce p) = true
            <-> slice_to 8 (VerifyRequest.iris_commitment_proof p)
                = slice_to 8 (Voter.iris_commitment (fields v))
                /\ 64 <= len (VerifyRequest.signed_nonce p)) as <-.
    { unfold proof_ok, sig_ok. rewrite andb_true_iff, String.eqb_eq, Nat.leb_le.
      split; intros [H1 H2]; split; auto. }
    destruct (_ && _); cbn; split; congruence.
  - intros g. rewrite !auth_verify_eq. cbn [with_nonces coll_set db_authsession voter authsession].
    rewrite Hv, filter_map_comm.
    change (fun x => session_of (VerifyRequest.voter_id p) (set_nonce g x))
      with (session_of (VerifyRequest.voter_id p)).
    destruct (filter _ (authsession db)) as [|d l]; [reflexivity|].
    cbn [map]. cbv zeta. destruct (_ && _); reflexivity.
Qed.

Lemma C9_verify_accepts_by_prefix_and_length_witness :
  (is_ok (fst (auth_verify ann_verify db_challenged)) = true
   <-> slice_to 8 (VerifyRequest.iris_commitment_proof ann_verify)
       = slice_to 8 "c0ffee0011223344"
       /\ 64 <= len (VerifyRequest.signed_nonce ann_verify))
  /\ forall g,
       fst (auth_verify ann_verify (with_nonces g db_challenged))
       = fst (auth_verify ann_verify db_challenged).
Proof.
  refine (@C9_verify_accepts_by_prefix_and_length ann_verify db_challenged
            {| _id := 0%N;
               fields := {| Voter.voter_id := "V1"; Voter.name := "Ann";
                            Voter.email := None; Voter.demographics := [];
                            Voter.public_key := "0xAB"; Voter.public_key_hash := ann_hash;
                            Voter.iris_commitment := "c0ffee0011223344";
                            Voter.registered_at := Some 10000%Z |} |}
            {| _id := 1%N;
               fields := {| AuthSession.voter_id := "V1"; AuthSession.nonce := "n1";
                            AuthSession.created_at := Some 20000%Z;
                            AuthSession.verified := false |} |} _ _ _).
  - vm_compute. reflexivity.
  - vm_compute. left. reflexivity.
  - reflexivity.
Defined.

Lemma NoDup_map_split {A B} (f : A -> B) (l1 : list A) (m : A) (l2 : list A) :
  NoDup (map f (l1 ++ m :: l2)) -> forall x, In x l1 -> f x <> f m.
Proof.
  rewrite map_app. cbn. intros H x Hx E.
  apply NoDup_remove_2 in H. apply H, in_or_app. left.
  rewrite <- E. now apply in_map.
Qed.

(** With the identifiers of the challenges distinct, as they are in
    every reachable store, a successful Verify returns the voter's
    public key hash and sets the flag of exactly one challenge of that
    voter to true, the rest of the store staying as it was: the
    challenge whose stored creation time no other challenge of the
    voter exceeds, the challenges of the voter stored before it being
    strictly older.  A challenge stored after it may carry the same
    stored time. *)
Lemma verify_marks_greatest_created_at p db r db' :
  unique_ids (authsession db) ->
  auth_verify p db = (Ok r, db') ->
  exists v before session after,
    find (by_voter_id (VerifyRequest.voter_id p)) (voter db) = Some v
    /\ r = Verified (Voter.public_key_hash (fields v))
    /\ authsession db = before ++ session :: after
    /\ AuthSession.voter_id (fields session) = VerifyRequest.voter_id p
    /\ (forall d, In d before ->
          AuthSession.voter_id (fields d) = VerifyRequest.voter_id p ->
          date_leb (session_time session) (session_time d) = false)
    /\ (forall d, In d after ->
          AuthSession.voter_id (fields d) = VerifyRequest.voter_id p ->
          date_leb (session_time d) (session_time session) = true)
    /\ authsession db' = before ++ mark_verified session :: after
    /\ session_flag (mark_verified session) = true
    /\ session_core (mark_verified session) = session_core session
    /\ voter db' = voter db /\ election db' = election db
    /\ voterecord db' = voterecord db /\ next_oid db' = next_oid db.
Proof.
  intros Huniq. rewrite auth_verify_eq.
  destruct (find _ (voter db)) as [v|]; [|discriminate].
  destruct (filter _ (authsession db)) as [|d l] eqn:E; [discriminate|].
  cbv zeta. destruct (_ && _); [|discriminate].
  intros [= <- <-].
  destruct (first_max_split session_time d l) as (l1 & l2 & Hl & H1 & H2).
  rewrite <- E in Hl.
  destruct (filter_split _ _ _ _ _ Hl) as (k1 & k2 & Hk & Hk1 & Hk2 & Hq).
  set (m := first_max session_time d l) in *.
  exists v, k1, m, k2. cbn. repeat split; try assumption.
  - now apply String.eqb_eq in Hq.
  - intros x Hx Hid. apply H1. rewrite <- Hk1. apply filter_In. split; [exact Hx|].
    now apply String.eqb_eq.
  - intros x Hx Hid. apply H2. rewrite <- Hk2. apply filter_In. split; [exact Hx|].
    now apply String.eqb_eq.
  - rewrite Hk, update_first_hit; [reflexivity| |apply N.eqb_refl].
    intros x Hx. apply N.eqb_neq. unfold unique_ids in Huniq. rewrite Hk in Huniq.
    exact (NoDup_map_split _ _ _ _ Huniq x Hx).
Qed.


(** C8: when two challenges of a voter are issued within one
    millisecond, the store holds them with the same creation time, and
    a successful Verify sets the flag of the one issued first: the
    challenge created most recently keeps the flag false. *)
Theorem C8_same_millisecond_marks_older_challenge :
  map session_view (authsession db_same_millisecond)
  = [("n1", Some 20000%Z, false); ("n2", Some 20000%Z, false)]
  /\ fst (auth_verify ann_verify db_same_millisecond) = Ok (Verified ann_hash)
  /\ map session_view (authsession (snd (auth_verify ann_verify db_same_millisecond)))
     = [("n1", Some 20000%Z, true); ("n2", Some 20000%Z, false)].
Proof. vm_compute. repeat split; reflexivity. Qed.

(** *** Verifying twice *)

Lemma update_sessions_related (q : Doc AuthSession.t -> bool) l :
  Forall2 same_session l (fst (update_first q set_verified l)).
Proof.
  induction l as [|d l IH]; cbn; [constructor|].
  destruct (q d); cbn.
  - constructor; [repeat split|].
    clear IH. induction l; constructor; [repeat split|assumption].
  - destruct (update_first q set_verified l) as [r hit]; cbn in *.
    constructor; [repeat split|exact IH].
Qed.

Lemma filter_sessions_related v l l' :
  Forall2 same_session l l' ->
  Forall2 same_session (filter (session_of v) l) (filter (session_of v) l').
Proof.
  induction 1 as [|x y l l' Hxy Hl IH]; cbn; [constructor|].
  assert (session_of v y = session_of v x) as ->
    by (unfold session_of; now rewrite (proj1 (proj2 Hxy))).
  destruct (session_of v x); [|exact IH].
  constructor; [exact Hxy|exact IH].
Qed.

Lemma first_max_sessions_related l l' :
  Forall2 same_session l l' -> forall b b',
  same_session b b' ->
  same_session (first_max session_time b l) (first_max session_time b' l').
Proof.
  induction 1 as [|x y l l' Hxy Hl IH]; intros b b' Hb; cbn; [exact Hb|].
  assert (session_time y = session_time x) as -> by apply Hxy.
  assert (session_time b' = session_time b) as -> by apply Hb.
  destruct (date_leb _ _); now apply IH.
Qed.

(** Updating by identifier with an idempotent update, twice, is
    updating once. *)
Lemma update_first_again {A} (oid : ObjectId) (upd : A -> A) (l : collection A) :
  (forall x, upd (upd x) = upd x) ->
  fst (update_first (fun d => N.eqb (_id d) oid) upd
         (fst (update_first (fun d => N.eqb (_id d) oid) upd l)))
  = fst (update_first (fun d => N.eqb (_id d) oid) upd l).
Proof.
  intros Hupd. induction l as [|d l IH]; cbn; [reflexivity|].
  destruct (N.eqb (_id d) oid) eqn:E; cbn.
  - now rewrite E, Hupd.
  - destruct (update_first _ upd l) as [r hit] eqn:Er; cbn in *.
    rewrite E. destruct (update_first _ upd r) as [r' hit'] eqn:Er'; cbn in *.
    now rewrite IH.
Qed.

(** The second Verify of the sample: it succeeds like the first. *)
Lemma C2_second_verify_succeeds :
  fst (auth_verify ann_verify db_challenged) = Ok (Verified ann_hash)
  /\ fst (auth_verify ann_verify (snd (auth_verify ann_verify db_challenged)))
     = Ok (Verified ann_hash).
Proof. vm_compute. split; reflexivity. Qed.

(** C2, as the handler has it: a successful Verify followed by a second
    Verify with the same request succeeds again, with the same public
    key hash, and leaves the store as the first call left it; the flag
    of the challenge is written and never read. *)
Theorem C2_verify_again_succeeds p db r db' :
  auth_verify p db = (Ok r, db') ->
  auth_verify p db' = (Ok r, db').
Proof.
  rewrite !auth_verify_eq.
  destruct (find _ (voter db)) as [v|] eqn:Ev; [|discriminate].
  destruct (filter _ (authsession db)) as [|d l] eqn:E; [discriminate|].
  cbv zeta. destruct (_ && _) eqn:Eok; [|discriminate].
  intros [= <- <-]. cbn [coll_set db_authsession voter authsession].
  rewrite Ev.
  set (m := first_max session_time d l).
  pose proof (filter_sessions_related (VerifyRequest.voter_id p)
                (update_sessions_related (fun x => N.eqb (_id x) (_id m)) (authsession db)))
    as Hrel.
  rewrite E in Hrel.
  match type of Hrel with
  | Forall2 _ _ ?f => destruct f as [|d' l'] eqn:E'; [inversion Hrel|]
  end.
  inversion Hrel as [|? ? ? ? Hd Hl]; subst.
  pose proof (first_max_sessions_related Hl Hd) as (Hid & _ & _).
  fold m in Hid. rewrite Eok, Hid, update_first_again; [reflexivity|].
  intros x. reflexivity.
Qed.

Lemma C2_verify_again_succeeds_witness :
  auth_verify ann_verify (snd (auth_verify ann_verify db_challenged))
  = (Ok (Verified ann_hash), snd (auth_verify ann_verify db_challenged)).
Proof.
  apply (@C2_verify_again_succeeds ann_verify db_challenged).
  vm_compute. reflexivity.
Defined.

(* ================================================================= *)
(** ** What CastVote does not check *)

(** A vote for a candidate the election does not list is accepted and
    recorded. *)
Lemma C4_unlisted_candidate_is_recorded :
  map (fun e => (ObjectId_str (_id e),
                 map Candidate.id (Election.candidates (fields e)))) (election db_prez)
  = [("000000000000000000000000", ["c1"; "c2"])]
  /\ fst (cast_vote (ballot "c9") db_prez) = Ok (Created "000000000000000000000001")
  /\ map (fun d => (VoteRecord.election_id (fields d), VoteRecord.candidate_id (fields d)))
         (voterecord (snd (cast_vote (ballot "c9") db_prez)))
     = [("000000000000000000000000", "c9")].
Proof. vm_compute. repeat split; reflexivity. Qed.

Lemma no_vote_yet e h (l : collection VoteRecord.t) :
  find (vote_of e h) l = None <-> forall d, In d l -> vote_key d <> (e, h).
Proof.
  rewrite find_none_iff. split; intros H d Hd.
  - intros Hk. apply vote_of_key in Hk. rewrite (H d Hd) in Hk. discriminate.
  - destruct (vote_of e h d) eqn:E; [|reflexivity].
    apply vote_of_key in E. now elim (H d Hd).
Qed.

(** C4, as the handler has it: the candidate identifier of a CastVote
    is not checked against any election.  When the ledger has no vote
    for the election and voter hash of the request, the call succeeds
    and adds one vote record, which carries the candidate identifier as
    submitted, listed or not. *)
Theorem C4_cast_vote_records_any_candidate p db :
  (forall d, In d (voterecord db) ->
     vote_key d <> (CastVoteRequest.election_id p,
                    CastVoteRequest.voter_public_key_hash p)) ->
  exists db',
    cast_vote p db = (Ok (Created (ObjectId_str (next_oid db))), db')
    /\ voterecord db' = voterecord db ++ [{| _id := next_oid db; fields := vote_record p |}]
    /\ VoteRecord.candidate_id (vote_record p) = CastVoteRequest.candidate_id p
    /\ election db' = election db.
Proof.
  intros Hnew. apply no_vote_yet in Hnew. rewrite cast_vote_eq, Hnew.
  eexists. repeat split.
Qed.

Lemma C4_cast_vote_records_any_candidate_witness :
  exists db',
    cast_vote (ballot "c9") db_prez = (Ok (Created (ObjectId_str (next_oid db_prez))), db')
    /\ voterecord db'
       = voterecord db_prez
         ++ [{| _id := next_oid db_prez; fields := vote_record (ballot "c9") |}]
    /\ VoteRecord.candidate_id (vote_record (ballot "c9"))
       = CastVoteRequest.candidate_id (ballot "c9")
    /\ election db' = election db_prez.
Proof.
  apply (@C4_cast_vote_records_any_candidate (ballot "c9") db_prez).
  intros d Hd. vm_compute in Hd. destruct Hd.
Defined.

(** A vote in an election that does not exist is accepted and
    recorded. *)
Lemma C5_vote_in_missing_election_is_recorded :
  election empty_db = []
  /\ fst (cast_vote (ballot "c1") empty_db) = Ok (Created "000000000000000000000000")
  /\ map vote_key (voterecord (snd (cast_vote (ballot "c1") empty_db)))
     = [("000000000000000000000000", ann_hash)].
Proof. vm_compute. repeat split; reflexivity. Qed.

(** C5, as the handler has it: CastVote reads neither the elections
    nor a clock.  When the ledger has no vote for the election and
    voter hash of the request it succeeds and records the vote: one
    record is added, with the fields of the request, under the
    identifier returned; when the ledger has such a vote it fails as a
    duplicate vote and changes nothing.  Replacing the election
    collection by any other (no election, a draft or closed one, any
    time window) changes neither the answer nor the ledger. *)
Theorem C5_cast_vote_ignores_elections p db :
  ((forall d, In d (voterecord db) ->
      vote_key d <> (CastVoteRequest.election_id p,
                     CastVoteRequest.voter_public_key_hash p)) ->
   exists db',
     cast_vote p db = (Ok (Created (ObjectId_str (next_oid db))), db')
     /\ voterecord db'
        = voterecord db ++ [{| _id := next_oid db; fields := vote_record p |}]
     /\ voter db' = voter db /\ authsession db' = authsession db
     /\ election db' = election db)
  /\
  ((exists d, In d (voterecord db)
              /\ vote_key d = (CastVoteRequest.election_id p,
                               CastVoteRequest.voter_public_key_hash p)) ->
   cast_vote p db = (Raised DuplicateVoteError, db))
  /\
  (is_ok (fst (cast_vote p db)) = true
   <-> forall d, In d (voterecord db) ->
         vote_key d <> (CastVoteRequest.election_id p,
                        CastVoteRequest.voter_public_key_hash p))
  /\ forall elections,
       fst (cast_vote p (coll_set db_election elections db)) = fst (cast_vote p db)
       /\ voterecord (snd (cast_vote p (coll_set db_election elections db)))
          = voterecord (snd (cast_vote p db)).
Proof.
  split; [|split; [|split]].
  - intros Hnew. apply no_vote_yet in Hnew. rewrite cast_vote_eq, Hnew.
    eexists. repeat split.
  - intros (d & Hd & Hk). rewrite cast_vote_eq.
    destruct (find_is_some _ _ _ Hd (proj2 (vote_of_key _ _ _) Hk)) as [y ->].
    reflexivity.
  - rewrite <- no_vote_yet, cast_vote_eq.
    destruct (find _ (voterecord db)); cbn; split; congruence.
  - intros elections. rewrite !cast_vote_eq. cbn [coll_set db_election voterecord].
    destruct (find _ (voterecord db)); split; reflexivity.
Qed.

Lemma C5_cast_vote_ignores_elections_witness :
  (exists db',
     cast_vote (ballot "c1") empty_db
     = (Ok (Created (ObjectId_str (next_oid empty_db))), db')
     /\ voterecord db'
        = voterecord empty_db
          ++ [{| _id := next_oid empty_db; fields := vote_record (ballot "c1") |}]
     /\ voter db' = voter empty_db /\ authsession db' = authsession empty_db
     /\ election db' = election empty_db)
  /\ cast_vote (ballot "c2") (snd (cast_vote (ballot "c1") empty_db))
     = (Raised DuplicateVoteError, snd (cast_vote (ballot "c1") empty_db)).
Proof.
  split.
  - apply (proj1 (C5_cast_vote_ignores_elections (ballot "c1") empty_db)).
    intros d [].
  - apply (proj1 (proj2 (C5_cast_vote_ignores_elections (ballot "c2")
                           (snd (cast_vote (ballot "c1") empty_db))))).
    eexists. split; [left; reflexivity|reflexivity].
Defined.

(* ================================================================= *)
(** ** Attaching the chain transaction *)

(** On a record that has a transaction hash, a second attachment with
    another hash succeeds and replaces the hash, and one with the same
    hash and another contract address changes the record. *)
Lemma C6_attach_overwrites_attached_record :
  map attachment (voterecord db_attached) = [(Some "0xaa", None, None)]
  /\ fst (attach_tx (tx "000000000000000000000000" "0xbb" None) db_attached) = Ok Attached
  /\ map attachment
       (voterecord (snd (attach_tx (tx "000000000000000000000000" "0xbb" None) db_attached)))
     = [(Some "0xbb", None, None)]
  /\ map attachment
       (voterecord (snd (attach_tx (tx "000000000000000000000000" "0xaa" (Some "0xC0DE"))
                           db_attached)))
     = [(Some "0xaa", Some "0xC0DE", None)].
Proof. vm_compute. repeat split; reflexivity. Qed.

Lemma coll_set_voterecord_same db : coll_set db_voterecord (voterecord db) db = db.
Proof. destruct db; reflexivity. Qed.

Lemma set_ints_fit p :
  forallb fits_int64 (set_ints p) = true
  <-> forall z, AttachTxRequest.chain_id p = Some z -> (- 2 ^ 63 <= z < 2 ^ 63)%Z.
Proof.
  unfold set_ints, fits_int64. destruct (AttachTxRequest.chain_id p) as [c|]; cbn.
  - rewrite andb_true_r, andb_true_iff, Z.leb_le, Z.ltb_lt. split.
    + intros H z [= <-]. exact H.
    + intros H. now apply H.
  - split; [intros _ z; discriminate|reflexivity].
Qed.

(** C6, as the handler has it: AttachTransaction on an existing vote
    record, with a chain identifier that fits eight bytes or with none,
    succeeds whether or not the record has a transaction hash already,
    and writes the hash, the contract address and the chain identifier
    of the request over the stored ones, touching no other record.  A
    different hash is not a conflict: it replaces the stored one.  The
    call leaves the store as it is when all three values are the stored
    ones already.  With a chain identifier beyond eight bytes the
    update raises OverflowError, which nothing catches, and nothing is
    written. *)
Theorem C6_attach_tx_overwrites p db oid d :
  ObjectId_of_str (AttachTxRequest.vote_id p) = Some oid ->
  find (fun x => N.eqb (_id x) oid) (voterecord db) = Some d ->
  ((forall z, AttachTxRequest.chain_id p = Some z -> (- 2 ^ 63 <= z < 2 ^ 63)%Z) ->
   exists before after,
     voterecord db = before ++ d :: after
     /\ attach_tx p db
        = (Ok Attached, coll_set db_voterecord (before ++ attach p d :: after) db)
     /\ attachment (attach p d)
        = (Some (AttachTxRequest.tx_hash p), AttachTxRequest.contract_address p,
           AttachTxRequest.chain_id p)
     /\ vote_core (attach p d) = vote_core d
     /\ (attachment d
         = (Some (AttachTxRequest.tx_hash p), AttachTxRequest.contract_address p,
            AttachTxRequest.chain_id p) ->
         attach_tx p db = (Ok Attached, db)))
  /\
  (forall z, AttachTxRequest.chain_id p = Some z -> (z < - 2 ^ 63 \/ 2 ^ 63 <= z)%Z ->
   attach_tx p db = (Uncaught "OverflowError", db)).
Proof.
  intros Hoid Hfind. split.
  - intros Hfit. apply set_ints_fit in Hfit.
    destruct (update_first_found _ _ Hfind) as (l1 & l2 & Hl & Hl1 & Hd).
    assert (attach_tx p db
            = (Ok Attached, coll_set db_voterecord (l1 ++ attach p d :: l2) db)) as Heq.
    { rewrite attach_tx_eq, Hoid, Hfit. cbv zeta. rewrite Hl at 1 2.
      rewrite update_first_hit by assumption. reflexivity. }
    exists l1, l2. repeat split; try assumption.
    intros Hsame. rewrite Heq. f_equal.
    assert (attach p d = d) as ->; [|rewrite <- Hl; apply coll_set_voterecord_same].
    unfold attachment in Hsame. destruct d as [i [e h c z s t ch ca]]. cbn in *.
    inversion Hsame; subst. reflexivity.
  - intros z Hz Hbig. rewrite attach_tx_eq, Hoid.
    assert (forallb fits_int64 (set_ints p) = false) as ->; [|reflexivity].
    unfold set_ints, fits_int64. rewrite Hz. cbn [forallb]. rewrite andb_true_r.
    apply andb_false_iff. rewrite Z.leb_gt, Z.ltb_ge. lia.
Qed.

Lemma C6_attach_tx_overwrites_witness :
  (exists before after,
     voterecord db_attached
     = before ++ {| _id := 0%N;
                    fields := set_tx (tx "000000000000000000000000" "0xaa" None)
                                (vote_record (ballot "c1")) |} :: after
     /\ attach_tx (tx "000000000000000000000000" "0xbb" None) db_attached
        = (Ok Attached,
           coll_set db_voterecord
             (before ++ attach (tx "000000000000000000000000" "0xbb" None)
                          {| _id := 0%N;
                             fields := set_tx (tx "000000000000000000000000" "0xaa" None)
                                         (vote_record (ballot "c1")) |} :: after)
             db_attached)
     /\ attachment (attach (tx "000000000000000000000000" "0xbb" None)
                      {| _id := 0%N;
                         fields := set_tx (tx "000000000000000000000000" "0xaa" None)
                                     (vote_record (ballot "c1")) |})
        = (Some "0xbb", None, None)
     /\ vote_core (attach (tx "000000000000000000000000" "0xbb" None)
                     {| _id := 0%N;
                        fields := set_tx (tx "000000000000000000000000" "0xaa" None)
                                    (vote_record (ballot "c1")) |})
        = vote_core {| _id := 0%N;
                       fields := set_tx (tx "000000000000000000000000" "0xaa" None)
                                   (vote_record (ballot "c1")) |}
     /\ (attachment {| _id := 0%N;
                       fields := set_tx (tx "000000000000000000000000" "0xaa" None)
                                   (vote_record (ballot "c1")) |}
         = (Some "0xbb", None, None) ->
         attach_tx (tx "000000000000000000000000" "0xbb" None) db_attached
         = (Ok Attached, db_attached)))
  /\ attach_tx big_chain db_attached = (Uncaught "OverflowError", db_attached).
Proof.
  split.
  - apply (proj1 (@C6_attach_tx_overwrites (tx "000000000000000000000000" "0xbb" None)
                    db_attached 0%N _ eq_refl eq_refl)).
    intros z Hz. discriminate Hz.
  - apply (proj2 (@C6_attach_tx_overwrites big_chain db_attached 0%N
                    {| _id := 0%N;
                       fields := set_tx (tx "000000000000000000000000" "0xaa" None)
                                   (vote_record (ballot "c1")) |}
                    eq_refl eq_refl) (2 ^ 63)%Z).
    + reflexivity.
    + right. lia.
Defined.

(* ================================================================= *)
(** ** The registry: one document per voter and per key *)

Lemma handle_voters_distinct r db :
  NoDup (voter_ids db) /\ NoDup (voter_hashes db) ->
  NoDup (voter_ids (snd (handle r db))) /\ NoDup (voter_hashes (snd (handle r db))).
Proof.
  intros [Hi Hh]. unfold voter_ids, voter_hashes in *.
  split_handler r; split_match; cbn; try (split; assumption).
  match goal with E : find _ _ = None |- _ => pose proof (find_none _ _ E) as Hnone end.
  rewrite !map_app. cbn. split; apply NoDup_snoc; try assumption.
  - intros Hin. apply in_map_iff in Hin. destruct Hin as (d & Hd & Hin).
    specialize (Hnone d Hin). apply orb_false_iff in Hnone. destruct Hnone as [Hn _].
    unfold by_voter_id in Hn. apply String.eqb_neq in Hn. now apply Hn.
  - intros Hin. apply in_map_iff in Hin. destruct Hin as (d & Hd & Hin).
    specialize (Hnone d Hin). apply orb_false_iff in Hnone. destruct Hnone as [_ Hn].
    apply String.eqb_neq in Hn. now apply Hn.
Qed.

Lemma run_voters_distinct rs : forall db,
  NoDup (voter_ids db) /\ NoDup (voter_hashes db) ->
  NoDup (voter_ids (run rs db)) /\ NoDup (voter_hashes (run rs db)).
Proof.
  induction rs as [|r rs IH]; intros db H; cbn; [exact H|].
  apply IH, handle_voters_distinct, H.
Qed.

(** X1: whatever requests are served from the empty store, no two voter
    documents share a voter identifier and no two share a public key
    hash. *)
Theorem X1_registry_has_no_duplicates rs :
  NoDup (voter_ids (run rs empty_db)) /\ NoDup (voter_hashes (run rs empty_db)).
Proof. apply run_voters_distinct. split; constructor. Qed.

(** X2: whatever requests are served from the empty store, every voter
    document carries the SHA-256 of its lower-cased public key as its
    hash. *)
Theorem X2_stored_hash_is_hash_of_lowered_key rs d :
  In d (voter (run rs empty_db)) ->
  Voter.public_key_hash (fields d) = sha256_hex (lower (Voter.public_key (fields d))).
Proof.
  intros Hd. destruct (run_ok rs empty_db_ok) as (_ & _ & _ & Hh & _).
  unfold hashes_consistent in Hh. rewrite Forall_forall in Hh. now apply Hh.
Qed.

Lemma X2_stored_hash_is_hash_of_lowered_key_witness :
  ann_hash = sha256_hex (lower "0xAB").
Proof.
  apply (@X2_stored_hash_is_hash_of_lowered_key [POST_register 10000 ann]
           {| _id := 0%N;
              fields := {| Voter.voter_id := "V1"; Voter.name := "Ann";
                           Voter.email := None; Voter.demographics := [];
                           Voter.public_key := "0xAB"; Voter.public_key_hash := ann_hash;
                           Voter.iris_commitment := "c0ffee0011223344";
                           Voter.registered_at := Some 10000%Z |} |}).
  vm_compute. left. reflexivity.
Defined.

(* ================================================================= *)
(** ** Challenges are issued to registered voters only *)

Lemma handle_sessions_registered r db :
  incl (session_voters db) (voter_ids db) ->
  incl (session_voters (snd (handle r db))) (voter_ids (snd (handle r db))).
Proof.
  unfold session_voters, voter_ids. intros H.
  split_handler r; split_match; cbn; try exact H.
  - rewrite map_app. apply incl_appl, H.
  - rewrite map_app. apply incl_app; [exact H|].
    intros v [<-|[]].
    match goal with E : find _ _ = Some ?d |- _ =>
      apply find_some in E; destruct E as [Hin Hq] end.
    unfold by_voter_id in Hq. apply String.eqb_eq in Hq. rewrite <- Hq.
    now apply (in_map (fun d => Voter.voter_id (fields d))).
  - rewrite update_first_map; [exact H|reflexivity].
Qed.

(** X3: whatever requests are served from the empty store, every
    challenge in it was issued for a voter identifier that has a voter
    document. *)
Theorem X3_challenges_belong_to_registered_voters rs :
  incl (session_voters (run rs empty_db)) (voter_ids (run rs empty_db)).
Proof.
  assert (forall db, incl (session_voters db) (voter_ids db) ->
                     incl (session_voters (run rs db)) (voter_ids (run rs db))) as H.
  { induction rs as [|r rs IH]; intros db Hdb; cbn; [exact Hdb|].
    apply IH, handle_sessions_registered, Hdb. }
  apply H. intros v [].
Qed.

(* ================================================================= *)
(** ** Elections *)

Lemma create_election_eq utcnow p db :
  create_election utcnow p db
  = (Ok (Created (ObjectId_str (next_oid db))),
     inserted db_election (election_of utcnow p) db).
Proof. reflexivity. Qed.

Lemma handle_elections_active r db :
  Forall (fun d => Election.status (fields d) = active
                   /\ Election.start_time (fields d) <> None) (election db) ->
  Forall (fun d => Election.status (fields d) = active
                   /\ Election.start_time (fields d) <> None)
         (election (snd (handle r db))).
Proof.
  intros H. split_handler r; split_match; cbn; try exact H.
  apply Forall_app. split; [exact H|].
  constructor; [|constructor]. cbn. split; [reflexivity|discriminate].
Qed.

(** X4: whatever requests are served from the empty store, every
    election in it has the status active and a start time: no handler
    stores a draft or closed election or changes a status. *)
Theorem X4_every_election_is_active rs d :
  In d (election (run rs empty_db)) ->
  Election.status (fields d) = active /\ Election.start_time (fields d) <> None.
Proof.
  revert d. apply Forall_forall.
  assert (forall db,
            Forall (fun d => Election.status (fields d) = active
                             /\ Election.start_time (fields d) <> None) (election db) ->
            Forall (fun d => Election.status (fields d) = active
                             /\ Election.start_time (fields d) <> None)
                   (election (run rs db))) as H.
  { induction rs as [|r rs IH]; intros db Hdb; cbn; [exact Hdb|].
    apply IH, handle_elections_active, Hdb. }
  apply H. constructor.
Qed.

Lemma X4_every_election_is_active_witness :
  active = active /\ Some 60000%Z <> None.
Proof.
  apply (@X4_every_election_is_active [POST_elections 60000 prez]
           {| _id := 0%N; fields := election_of 60000 prez |}).
  vm_compute. left. reflexivity.
Defined.

(* ================================================================= *)
(** ** What the handlers never touch *)

Lemma handle_election_grows r db :
  exists extra, election (snd (handle r db)) = election db ++ extra.
Proof.
  split_handler r; split_match; cbn;
    try (exists []; now rewrite app_nil_r); eexists; reflexivity.
Qed.

(** X5: voter documents and elections are only ever added: after any
    requests, the voter collection and the election collection start
    with the documents they had, unchanged and in their order. *)
Theorem X5_voters_and_elections_append_only rs : forall db,
  (exists extra, voter (run rs db) = voter db ++ extra)
  /\ (exists extra, election (run rs db) = election db ++ extra).
Proof.
  induction rs as [|r rs IH]; intros db; cbn.
  - split; exists []; now rewrite app_nil_r.
  - destruct (IH (snd (handle r db))) as [[e1 ->] [e2 ->]].
    destruct (handle_voter_grows r db) as [e3 ->].
    destruct (handle_election_grows r db) as [e4 ->].
    split; eexists; rewrite <- app_assoc; reflexivity.
Qed.

Lemma handle_vote_cores r db :
  exists extra,
    map vote_core (voterecord (snd (handle r db))) = map vote_core (voterecord db) ++ extra.
Proof.
  split_handler r; split_match; cbn;
    try (exists []; rewrite app_nil_r;
         first [reflexivity | now apply update_first_map]).
  rewrite map_app. eexists; reflexivity.
Qed.

(** X6: a vote record is never removed and, its attachment fields
    apart, never changed: after any requests the ledger starts with the
    records it had, each with its identifier, election, voter hash,
    candidate, proof payload and signed payload as they were. *)
Theorem X6_votes_keep_their_content rs : forall db,
  exists extra,
    map vote_core (voterecord (run rs db)) = map vote_core (voterecord db) ++ extra.
Proof.
  induction rs as [|r rs IH]; intros db; cbn.
  - exists []. now rewrite app_nil_r.
  - destruct (IH (snd (handle r db))) as [e1 ->].
    destruct (handle_vote_cores r db) as [e2 ->].
    eexists. rewrite <- app_assoc. reflexivity.
Qed.

Lemma session_kept_refl x : session_kept x x.
Proof. split; auto. Qed.

Lemma session_kept_trans x y z : session_kept x y -> session_kept y z -> session_kept x z.
Proof. intros [H1 H2] [H3 H4]. split; [congruence|auto]. Qed.

Lemma sessions_kept_refl l : Forall2 session_kept l l.
Proof. induction l; constructor; [apply session_kept_refl|assumption]. Qed.

Lemma sessions_kept_trans l1 : forall l2 l3,
  Forall2 session_kept l1 l2 -> Forall2 session_kept l2 l3 -> Forall2 session_kept l1 l3.
Proof.
  induction l1 as [|x l1 IH]; intros l2 l3 H12 H23.
  - inversion H12; subst. inversion H23; subst. constructor.
  - inversion H12 as [|? y ? l2' Hxy Hl]; subst.
    inversion H23 as [|? z ? l3' Hyz Hl']; subst.
    constructor; [eapply session_kept_trans; eassumption|eapply IH; eassumption].
Qed.

Lemma update_sessions_kept (q : Doc AuthSession.t -> bool) l :
  Forall2 session_kept l (fst (update_first q set_verified l)).
Proof.
  induction l as [|d l IH]; cbn; [constructor|].
  destruct (q d); cbn.
  - constructor; [split; reflexivity|apply sessions_kept_refl].
  - destruct (update_first q set_verified l) as [r hit]; cbn in *.
    constructor; [apply session_kept_refl|exact IH].
Qed.

Lemma handle_sessions_kept r db :
  exists kept extra,
    authsession (snd (handle r db)) = kept ++ extra
    /\ Forall2 session_kept (authsession db) kept.
Proof.
  split_handler r; split_match; cbn;
    try (exists (authsession db), []; split;
         [now rewrite app_nil_r|apply sessions_kept_refl]).
  - eexists _, _. split; [reflexivity|apply sessions_kept_refl].
  - eexists _, []. split; [now rewrite app_nil_r|apply update_sessions_kept].
Qed.

(** X7: a challenge is never removed, its voter, nonce and creation
    time never change, and its flag is never reset: after any requests
    the challenge collection starts with the challenges it had, each
    the same but for a flag that may have gone from false to true. *)
Theorem X7_challenges_kept_and_flags_monotone rs : forall db,
  exists kept extra,
    authsession (run rs db) = kept ++ extra
    /\ Forall2 session_kept (authsession db) kept.
Proof.
  induction rs as [|r rs IH]; intros db; cbn.
  - exists (authsession db), []. split; [now rewrite app_nil_r|apply sessions_kept_refl].
  - destruct (IH (snd (handle r db))) as (k2 & e2 & -> & H2).
    destruct (handle_sessions_kept r db) as (k1 & e1 & E1 & H1).
    rewrite E1 in H2. apply Forall2_app_inv_l in H2.
    destruct H2 as (k2a & k2b & Ha & Hb & ->).
    exists k2a, (k2b ++ e2). split; [now rewrite app_assoc|].
    eapply sessions_kept_trans; eassumption.
Qed.

(* ================================================================= *)
(** ** Failing requests *)

Lemma update_first_no_hit {A} (q : Doc A -> bool) (upd : A -> A) l :
  snd (update_first q upd l) = false -> fst (update_first q upd l) = l.
Proof.
  induction l as [|d l IH]; cbn; [reflexivity|].
  destruct (q d); cbn; [discriminate|].
  destruct (update_first q upd l) as [r hit]; cbn in *.
  intros H. now rewrite IH.
Qed.

(** X8: a request that fails has no effect: whichever handler raises,
    the store is the one the request started from, and the exception is
    one of seven, with status 400, 401 or 404. *)
Theorem X8_failed_request_leaves_store r db err :
  fst (handle r db) = Raised err ->
  snd (handle r db) = db /\ In err raised_errors.
Proof.
  unfold raised_errors.
  split_handler r; split_match; cbn; try discriminate; intros [= <-];
    (split; [|cbn; tauto]); try reflexivity.
  match goal with E : snd (update_first _ _ _) = false |- _ =>
    rewrite (update_first_no_hit _ _ _ E) end.
  apply coll_set_voterecord_same.
Qed.

Lemma X8_failed_request_leaves_store_witness :
  snd (handle (POST_vote_attach_tx (tx "000000000000000000000007" "0xaa" None)) db_attached)
  = db_attached
  /\ In (HTTP 404 "Vote not found") raised_errors.
Proof.
  apply (@X8_failed_request_leaves_store
           (POST_vote_attach_tx (tx "000000000000000000000007" "0xaa" None)) db_attached).
  vm_compute. reflexivity.
Defined.

(* ================================================================= *)
(** ** The shape of a hash *)

Lemma round_length st kw : List.length (SHA256.round st kw) = List.length st.
Proof.
  unfold SHA256.round.
  destruct st as [|a [|b [|c [|d [|e [|f [|g [|h [|i st]]]]]]]]]; reflexivity.
Qed.

Lemma rounds_length kws : forall st,
  List.length (fold_left SHA256.round kws st) = List.length st.
Proof.
  induction kws as [|kw kws IH]; intros st; cbn; [reflexivity|].
  now rewrite IH, round_length.
Qed.

Lemma compress_length h block : List.length (SHA256.compress h block) = List.length h.
Proof.
  unfold SHA256.compress. cbv zeta.
  rewrite length_map, length_combine, rounds_length. apply Nat.min_id.
Qed.

Lemma digest_state_length blocks : forall h,
  List.length (fold_left SHA256.compress blocks h) = List.length h.
Proof.
  induction blocks as [|b blocks IH]; intros h; cbn; [reflexivity|].
  now rewrite IH, compress_length.
Qed.

Lemma be_bytes_length n x : List.length (SHA256.be_bytes n x) = n.
Proof. induction n as [|n IH]; cbn; [reflexivity|now rewrite IH]. Qed.

Lemma be_bytes_small n x : Forall (fun b => (b < 256)%N) (SHA256.be_bytes n x).
Proof.
  induction n as [|n IH]; cbn; constructor; [|exact IH].
  change 255%N with (N.ones 8). rewrite N.land_ones.
  apply N.mod_lt. discriminate.
Qed.

Lemma flat_bytes_length ws :
  List.length (flat_map (SHA256.be_bytes 4) ws) = 4 * List.length ws.
Proof.
  induction ws as [|w ws IH]; cbn [flat_map]; [reflexivity|].
  rewrite length_app, be_bytes_length, IH. cbn [List.length]. lia.
Qed.

Lemma flat_bytes_small ws :
  Forall (fun b => (b < 256)%N) (flat_map (SHA256.be_bytes 4) ws).
Proof.
  induction ws as [|w ws IH]; cbn [flat_map]; [constructor|].
  apply Forall_app. split; [apply be_bytes_small|exact IH].
Qed.

Lemma hex_digit_lower n : (n < 16)%N -> is_lower_hex (SHA256.hex_digit n) = true.
Proof.
  intros H. rewrite <- (N2Nat.id n).
  assert (N.to_nat n < 16) as Hn by lia.
  destruct (N.to_nat n) as [|k]; [reflexivity|].
  do 15 (destruct k as [|k]; [reflexivity|]). lia.
Qed.

Lemma hex_length bs : len (SHA256.hex bs) = 2 * List.length bs.
Proof.
  induction bs as [|b bs IH]; cbn [SHA256.hex len String.length List.length];
    [reflexivity|].
  unfold len in IH. rewrite IH. lia.
Qed.

Lemma hex_lower bs :
  Forall (fun b => (b < 256)%N) bs -> all_chars is_lower_hex (SHA256.hex bs) = true.
Proof.
  induction 1 as [|b bs Hb Hbs IH]; cbn [SHA256.hex all_chars]; [reflexivity|].
  rewrite IH, !hex_digit_lower; [reflexivity| |].
  - change 15%N with (N.ones 4). rewrite N.land_ones. apply N.mod_lt. discriminate.
  - rewrite N.shiftr_div_pow2. change (2 ^ 4)%N with 16%N.
    apply N.Div0.div_lt_upper_bound. exact Hb.
Qed.

(** X9: the hash of any string is 64 characters long, each a digit of
    lower-case hexadecimal. *)
Theorem X9_sha256_hex_is_64_lower_hex_digits data :
  len (sha256_hex data) = 64 /\ all_chars is_lower_hex (sha256_hex data) = true.
Proof.
  unfold sha256_hex, SHA256.hexdigest, SHA256.digest. cbv zeta. split.
  - rewrite hex_length, flat_bytes_length, digest_state_length. reflexivity.
  - apply hex_lower, flat_bytes_small.
Qed.

(* ================================================================= *)
(** ** Listing *)

Lemma insert_desc_perm {A} (d : Doc A) l : Permutation (insert_desc d l) (d :: l).
Proof.
  induction l as [|x l IH]; cbn; [reflexivity|].
  destruct (_id x <? _id d)%N; [reflexivity|].
  rewrite IH. apply perm_swap.
Qed.

Lemma sort_id_desc_perm {A} (l : list (Doc A)) : Permutation (sort_id_desc l) l.
Proof.
  induction l as [|x l IH]; cbn; [reflexivity|].
  rewrite insert_desc_perm. now constructor.
Qed.

Lemma insert_desc_sorted {A} (d : Doc A) l :
  StronglySorted id_desc l -> StronglySorted id_desc (insert_desc d l).
Proof.
  induction 1 as [|x l Hl IH Hx]; cbn.
  - constructor; constructor.
  - destruct (_id x <? _id d)%N eqn:E.
    + apply N.ltb_lt in E. constructor; [constructor; assumption|].
      constructor; [unfold id_desc; lia|].
      rewrite Forall_forall in *. intros y Hy. specialize (Hx y Hy).
      unfold id_desc in *. lia.
    + apply N.ltb_ge in E. constructor; [exact IH|].
      rewrite Forall_forall in *. intros y Hy.
      apply (Permutation_in _ (insert_desc_perm d l)) in Hy.
      destruct Hy as [<-|Hy]; [exact E|now apply Hx].
Qed.

Lemma sort_id_desc_sorted {A} (l : list (Doc A)) : StronglySorted id_desc (sort_id_desc l).
Proof.
  induction l as [|x l IH]; cbn; [constructor|]. now apply insert_desc_sorted.
Qed.

Lemma list_votes_items election_id db :
  exists items,
    fst (list_votes election_id db) = Ok (Votes (stringify items))
    /\ Permutation items (filter (votes_query election_id) (voterecord db))
    /\ StronglySorted id_desc items.
Proof.
  eexists. split; [reflexivity|]. split; [|apply sort_id_desc_sorted].
  rewrite sort_id_desc_perm.
  destruct election_id as [[|c e]|]; reflexivity.
Qed.

(** X10: listing the votes changes nothing and never fails; it returns
    the records of the requested election, or all records when no
    election or the empty string is given, each exactly as often as it
    is stored, in descending order of identifiers. *)
Theorem X10_list_votes_filters_and_sorts election_id db :
  snd (list_votes election_id db) = db
  /\ exists items,
       fst (list_votes election_id db) = Ok (Votes (stringify items))
       /\ Permutation items (filter (votes_query election_id) (voterecord db))
       /\ StronglySorted id_desc items.
Proof. split; [reflexivity|apply list_votes_items]. Qed.

(** X11: creating an election never fails, and the election is then
    listed last, after the elections listed before, under the
    identifier the creation returned: with the title, description and
    candidates of the request, the status active, and its times in
    whole milliseconds, the start time being the time of the request
    when none was given. *)
Theorem X11_created_election_is_listed utcnow p db :
  exists id db',
    create_election utcnow p db = (Ok (Created id), db')
    /\ fst (list_elections db) = Ok (Elections (stringify (election db)))
    /\ fst (list_elections db')
       = Ok (Elections
               (stringify (election db)
                ++ [(id,
                     {| Election.title := CreateElectionRequest.title p;
                        Election.description := CreateElectionRequest.description p;
                        Election.status := active;
                        Election.candidates := CreateElectionRequest.candidates p;
                        Election.start_time :=
                          Some (to_millis
                                  (match CreateElectionRequest.start_time p with
                                   | Some t => t
                                   | None => utcnow
                                   end));
                        Election.end_time :=
                          option_map to_millis (CreateElectionRequest.end_time p) |})])).
Proof.
  eexists _, _. rewrite create_election_eq. split; [reflexivity|].
  split; [reflexivity|].
  unfold list_elections, bind, get_documents, ret, stringify. cbn.
  now rewrite map_app.
Qed.

(* ================================================================= *)
(** ** Identifiers as strings *)

Lemma hex_value_digit n : (n < 16)%N -> hex_value (SHA256.hex_digit n) = Some n.
Proof.
  intros H. rewrite <- (N2Nat.id n).
  assert (N.to_nat n < 16) as Hn by lia.
  destruct (N.to_nat n) as [|k]; [reflexivity|].
  do 15 (destruct k as [|k]; [reflexivity|]). lia.
Qed.

Lemma hex_digit_not_space n : (n < 16)%N -> is_space (SHA256.hex_digit n) = false.
Proof.
  intros H. rewrite <- (N2Nat.id n).
  assert (N.to_nat n < 16) as Hn by lia.
  destruct (N.to_nat n) as [|k]; [reflexivity|].
  do 15 (destruct k as [|k]; [reflexivity|]). lia.
Qed.

Lemma fromhex_hex bs :
  Forall (fun b => (b < 256)%N) bs -> fromhex (SHA256.hex bs) = Some bs.
Proof.
  induction 1 as [|b bs Hb Hbs IH]; cbn [SHA256.hex fromhex]; [reflexivity|].
  assert (N.shiftr b 4 < 16)%N as Hhi.
  { rewrite N.shiftr_div_pow2. change (2 ^ 4)%N with 16%N.
    apply N.Div0.div_lt_upper_bound. exact Hb. }
  assert (N.land b 15 < 16)%N as Hlo.
  { change 15%N with (N.ones 4). rewrite N.land_ones. apply N.mod_lt. discriminate. }
  rewrite hex_digit_not_space, !hex_value_digit, IH by assumption.
  f_equal. f_equal.
  change 15%N with (N.ones 4). rewrite N.land_ones, N.shiftr_div_pow2.
  change (2 ^ 4)%N with 16%N.
  pose proof (N.div_mod b 16). lia.
Qed.

Lemma be_bytes_value n x : forall acc,
  fold_left (fun a b => (256 * a + b)%N) (SHA256.be_bytes n x) acc
  = (acc * 256 ^ N.of_nat n + x mod 256 ^ N.of_nat n)%N.
Proof.
  induction n as [|n IH]; intros acc; cbn [SHA256.be_bytes fold_left].
  - cbn. rewrite N.mod_1_r. lia.
  - rewrite IH. change 255%N with (N.ones 8).
    rewrite N.land_ones, N.shiftr_div_pow2.
    replace (2 ^ (8 * N.of_nat n))%N with (256 ^ N.of_nat n)%N
      by (change 256%N with (2 ^ 8)%N; now rewrite <- N.pow_mul_r).
    change (2 ^ 8)%N with 256%N.
    rewrite Nat2N.inj_succ, N.pow_succ_r'.
    rewrite (N.mul_comm 256 (256 ^ N.of_nat n)).
    rewrite (N.Div0.mod_mul_r x (256 ^ N.of_nat n) 256). lia.
Qed.

(** Reading back the string of an identifier of twelve bytes. *)
Lemma ObjectId_round_trip oid :
  (oid < 2 ^ 96)%N -> ObjectId_of_str (ObjectId_str oid) = Some oid.
Proof.
  intros H. unfold ObjectId_of_str, ObjectId_str.
  rewrite hex_length, be_bytes_length. cbn [Nat.mul Nat.add Nat.eqb].
  rewrite fromhex_hex by apply be_bytes_small.
  unfold ObjectId_of_bytes, bytes_value.
  rewrite be_bytes_length, be_bytes_value. cbn [Nat.eqb]. f_equal.
  change (256 ^ N.of_nat 12)%N with (2 ^ 96)%N.
  rewrite N.mod_small by exact H. lia.
Qed.

(* ================================================================= *)
(** ** Attaching: errors, and the identifier of a cast vote *)




(** X13: the identifier CastVote returns is the one AttachTransaction
    takes.  In a store whose identifiers are all below the next one,
    itself of twelve bytes, attaching to the identifier returned by a
    successful CastVote, with a chain identifier that fits eight bytes
    or none, succeeds and writes the attachment into the record just
    cast, every other record staying as it was. *)
Theorem X13_attach_tx_finds_the_cast_vote p t db id db' :
  ids_fresh db ->
  (next_oid db < 2 ^ 96)%N ->
  cast_vote p db = (Ok (Created id), db') ->
  AttachTxRequest.vote_id t = id ->
  (forall z, AttachTxRequest.chain_id t = Some z -> (- 2 ^ 63 <= z < 2 ^ 63)%Z) ->
  attach_tx t db'
  = (Ok Attached,
     coll_set db_voterecord
       (voterecord db ++ [{| _id := next_oid db; fields := set_tx t (vote_record p) |}])
       db').
Proof.
  intros (_ & _ & _ & Hfresh) Hsmall Hcast Hid Hfit. apply set_ints_fit in Hfit.
  destruct (cast_vote_ok _ _ Hcast) as (_ & Hr & Hv).
  injection Hr as Hr.
  rewrite attach_tx_eq, Hid, Hr, ObjectId_round_trip, Hfit by exact Hsmall.
  cbv zeta. rewrite Hv, update_first_hit; [reflexivity| |apply N.eqb_refl].
  intros x Hx. apply N.eqb_neq.
  unfold below in Hfresh. rewrite Forall_forall in Hfresh.
  specialize (Hfresh x Hx). lia.
Qed.

Lemma X13_attach_tx_finds_the_cast_vote_witness :
  attach_tx (tx "000000000000000000000001" "0xaa" None) (snd (cast_vote (ballot "c1") db_prez))
  = (Ok Attached,
     coll_set db_voterecord
       (voterecord db_prez
        ++ [{| _id := next_oid db_prez;
               fields := set_tx (tx "000000000000000000000001" "0xaa" None)
                           (vote_record (ballot "c1")) |}])
       (snd (cast_vote (ballot "c1") db_prez))).
Proof.
  apply (@X13_attach_tx_finds_the_cast_vote (ballot "c1")
           (tx "000000000000000000000001" "0xaa" None) db_prez
           "000000000000000000000001").
  - unfold ids_fresh, below. vm_compute. repeat split; repeat constructor.
  - vm_compute. reflexivity.
  - vm_compute. reflexivity.
  - reflexivity.
  - intros z Hz. discriminate Hz.
Defined.

(** X14: a vote that was cast is listed, under the identifier CastVote
    returned, both among all votes and among the votes of its
    election. *)
Theorem X14_cast_vote_is_listed p db id db' :
  cast_vote p db = (Ok (Created id), db') ->
  forall election_id,
    election_id = None \/ election_id = Some (CastVoteRequest.election_id p) ->
    exists items,
      fst (list_votes election_id db') = Ok (Votes items)
      /\ In (id, vote_record p) items.
Proof.
  intros Hcast election_id He.
  destruct (cast_vote_ok _ _ Hcast) as (_ & Hr & Hv). injection Hr as ->.
  destruct (list_votes_items election_id db') as (items & -> & Hp & _).
  eexists. split; [reflexivity|].
  unfold stringify.
  apply (in_map (fun it => (ObjectId_str (_id it), fields it))
                items {| _id := next_oid db; fields := vote_record p |}).
  apply (Permutation_in _ (Permutation_sym Hp)).
  apply filter_In. split.
  - rewrite Hv. apply in_or_app. right. now left.
  - destruct He as [-> | ->]; [reflexivity|].
    unfold votes_query. cbn.
    destruct (CastVoteRequest.election_id p); [reflexivity|apply String.eqb_refl].
Qed.

(* ================================================================= *)
(** ** From registration to verification *)




(** X16: a challenge is issued exactly to registered voters.  For a
    voter identifier without a voter document the request fails with
    404 "Voter not found" and stores nothing; after a successful
    Register, whatever was served since, a challenge for that voter
    identifier succeeds, answers with the token, and adds one challenge
    with the flag false that carries the token and the time of the
    request in whole milliseconds. *)
Theorem X16_challenge_for_registered_voters_only utcnow token c :
  (forall db,
     ~ In (ChallengeResponse.voter_id c) (voter_ids db) ->
     auth_challenge utcnow token c db = (Raised NotFoundError, db))
  /\
  (forall utcnow0 p db0 r db1 rs,
     register_voter utcnow0 p db0 = (Ok r, db1) ->
     ChallengeResponse.voter_id c = RegisterRequest.voter_id p ->
     exists db2,
       auth_challenge utcnow token c (run rs db1) = (Ok (Challenge token), db2)
       /\ authsession db2
          = authsession (run rs db1)
            ++ [{| _id := next_oid (run rs db1);
                   fields :=
                     {| AuthSession.voter_id := ChallengeResponse.voter_id c;
                        AuthSession.nonce := token;
                        AuthSession.created_at := Some (to_millis utcnow);
                        AuthSession.verified := false |} |}]
       /\ voter db2 = voter (run rs db1)).
Proof.
  split.
  - intros db Hnone. rewrite auth_challenge_eq.
    assert (find (by_voter_id (ChallengeResponse.voter_id c)) (voter db) = None) as ->;
      [|reflexivity].
    apply find_none_iff. intros d Hd. apply String.eqb_neq. intros E.
    apply Hnone. unfold voter_ids. rewrite <- E.
    now apply (in_map (fun d => Voter.voter_id (fields d))).
  - intros utcnow0 p db0 r db1 rs Hreg Hc.
    destruct (register_voter_ok _ _ _ Hreg) as (_ & _ & v & Hv & Hid & _).
    assert (In {| _id := next_oid db0; fields := v |} (voter (run rs db1))) as Hin.
    { apply run_voter_grows. rewrite Hv. apply in_or_app. right. now left. }
    rewrite auth_challenge_eq.
    destruct (find_is_some (by_voter_id (ChallengeResponse.voter_id c)) _ _ Hin) as [w ->].
    { unfold by_voter_id. cbn. rewrite Hid, Hc. apply String.eqb_refl. }
    eexists. split; [reflexivity|]. split; reflexivity.
Qed.

Lemma X16_challenge_for_registered_voters_only_witness :
  auth_challenge 20400 "n1" ann_challenge empty_db = (Raised NotFoundError, empty_db)
  /\ exists db2,
       auth_challenge 20400 "n1" ann_challenge
         (run [] (snd (register_voter 10000 ann empty_db)))
       = (Ok (Challenge "n1"), db2)
       /\ authsession db2
          = authsession (run [] (snd (register_voter 10000 ann empty_db)))
            ++ [{| _id := next_oid (run [] (snd (register_voter 10000 ann empty_db)));
                   fields :=
                     {| AuthSession.voter_id := "V1";
                        AuthSession.nonce := "n1";
                        AuthSession.created_at := Some (to_millis 20400);
                        AuthSession.verified := false |} |}]
       /\ voter db2 = voter (run [] (snd (register_voter 10000 ann empty_db))).
Proof.
  split.
  - apply (proj1 (X16_challenge_for_registered_voters_only 20400 "n1" ann_challenge)).
    intros [].
  - apply (proj2 (X16_challenge_for_registered_voters_only 20400 "n1" ann_challenge)
             10000%Z ann empty_db (Registered "000000000000000000000000" ann_hash)).
    + vm_compute. reflexivity.
    + reflexivity.
Defined.

Lemma first_max_last {A} (key : A -> option datetime) x l : forall best,
  date_leb (key x) (key best) = false ->
  (forall y, In y l -> date_leb (key x) (key y) = false) ->
  first_max key best (l ++ [x]) = x.
Proof.
  induction l as [|a l IH]; intros best Hb Hl; cbn.
  - now rewrite Hb.
  - apply IH.
    + destruct (date_leb (key a) (key best)); [exact Hb|].
      apply Hl. now left.
    + intros y Hy. apply Hl. now right.
Qed.

(** X17: a fresh challenge is the one Verify consumes.  In a store
    whose identifiers are all below the next one, when a challenge is
    issued at a time that is, in whole milliseconds, later than the
    stored time of every challenge the voter has, a successful Verify
    for the voter sets the flag of this new challenge to true, and
    changes no other challenge. *)
Theorem X17_verify_consumes_the_fresh_challenge utcnow token c q db r1 db1 r2 db2 :
  ids_fresh db ->
  (forall s, In s (authsession db) ->
     AuthSession.voter_id (fields s) = ChallengeResponse.voter_id c ->
     date_leb (Some (to_millis utcnow)) (session_time s) = false) ->
  auth_challenge utcnow token c db = (Ok r1, db1) ->
  VerifyRequest.voter_id q = ChallengeResponse.voter_id c ->
  auth_verify q db1 = (Ok r2, db2) ->
  authsession db2
  = authsession db
    ++ [{| _id := next_oid db;
           fields :=
             {| AuthSession.voter_id := ChallengeResponse.voter_id c;
                AuthSession.nonce := token;
                AuthSession.created_at := Some (to_millis utcnow);
                AuthSession.verified := true |} |}].
Proof.
  intros (_ & Hfresh & _) Hold Hch Hq Hver.
  rewrite auth_challenge_eq in Hch.
  destruct (find _ (voter db)); [|discriminate]. injection Hch as _ <-.
  rewrite auth_verify_eq in Hver.
  destruct (find _ (voter _)) as [v|]; [|discriminate].
  cbn [inserted create_document snd coll_set coll_get coll_bson db_authsession
       authsession] in Hver.
  unfold bson_authsession in Hver.
  cbn [option_map AuthSession.voter_id AuthSession.nonce AuthSession.created_at
       AuthSession.verified] in Hver.
  rewrite filter_app in Hver. cbn [filter] in Hver.
  set (new := {| _id := next_oid db;
                 fields :=
                   {| AuthSession.voter_id := ChallengeResponse.voter_id c;
                      AuthSession.nonce := token;
                      AuthSession.created_at := Some (to_millis utcnow);
                      AuthSession.verified := false |} |}) in *.
  assert (session_of (VerifyRequest.voter_id q) new = true) as Hnew
    by (unfold session_of; cbn; rewrite Hq; apply String.eqb_refl).
  rewrite Hnew in Hver.
  assert (forall y, In y (filter (session_of (VerifyRequest.voter_id q)) (authsession db)) ->
                    date_leb (session_time new) (session_time y) = false) as Hlt.
  { intros y Hy. apply filter_In in Hy. destruct Hy as [Hy Hyq].
    apply Hold; [exact Hy|]. apply String.eqb_eq in Hyq. congruence. }
  assert (forall x l, x :: l = filter (session_of (VerifyRequest.voter_id q)) (authsession db)
                              ++ [new] ->
                      first_max session_time x l = new) as Hmax.
  { intros x l E.
    destruct (filter _ (authsession db)) as [|x' l'].
    - injection E as -> ->. reflexivity.
    - injection E as -> ->. apply first_max_last.
      + apply Hlt. now left.
      + intros y Hy. apply Hlt. now right. }
  destruct (filter _ (authsession db) ++ [new]) as [|x l] eqn:E;
    [discriminate|].
  cbv zeta in Hver. rewrite (Hmax x l eq_refl) in Hver.
  destruct (_ && _); [|discriminate].
  injection Hver as _ <-. cbn [coll_set db_authsession authsession].
  rewrite update_first_hit; [reflexivity| |apply N.eqb_refl].
  intros y Hy. apply N.eqb_neq.
  unfold below in Hfresh. rewrite Forall_forall in Hfresh.
  specialize (Hfresh y Hy). cbn. lia.
Qed.

Lemma X17_verify_consumes_the_fresh_challenge_witness :
  let db := run [POST_register 10000 ann; POST_auth_challenge 20000 "n1" ann_challenge]
              empty_db in
  authsession (snd (auth_verify ann_verify (snd (auth_challenge 21000 "n2" ann_challenge db))))
  = authsession db
    ++ [{| _id := next_oid db;
           fields :=
             {| AuthSession.voter_id := "V1";
                AuthSession.nonce := "n2";
                AuthSession.created_at := Some (to_millis 21000);
                AuthSession.verified := true |} |}].
Proof.
  apply (@X17_verify_consumes_the_fresh_challenge 21000 "n2" ann_challenge ann_verify
           (run [POST_register 10000 ann; POST_auth_challenge 20000 "n1" ann_challenge]
                empty_db)
           (Challenge "n2")
           (snd (auth_challenge 21000 "n2" ann_challenge
                   (run [POST_register 10000 ann; POST_auth_challenge 20000 "n1" ann_challenge]
                        empty_db)))
           (Verified ann_hash)).
  - unfold ids_fresh, below. vm_compute. repeat split; repeat constructor.
  - intros s Hs. vm_compute in Hs. destruct Hs as [<-|[]]. reflexivity.
  - vm_compute. reflexivity.
  - reflexivity.
  - vm_compute. reflexivity.
Defined.

(* ================================================================= *)
(** ** What passes the placeholder checks *)

Lemma slice_to_prefix n : forall c rest,
  n <= len c -> slice_to n (slice_to n c ++ rest)%string = slice_to n c.
Proof.
  induction n as [|n IH]; intros c rest Hn; [reflexivity|].
  destruct c as [|a c]; cbn in Hn; [lia|].
  cbn. f_equal. apply IH. unfold len. lia.
Qed.

(** X18: the first eight characters of the commitment open the
    session.  For a registered voter with a challenge and a stored iris
    commitment of at least eight characters, Verify succeeds for every
    proof that starts with the first eight characters of the commitment
    and every signed nonce of at least 64 characters, whatever follows
    the eight characters and whatever the signed nonce says. *)
Theorem X18_commitment_prefix_suffices q db v s rest :
  find (by_voter_id (VerifyRequest.voter_id q)) (voter db) = Some v ->
  In s (authsession db) ->
  AuthSession.voter_id (fields s) = VerifyRequest.voter_id q ->
  8 <= len (Voter.iris_commitment (fields v)) ->
  VerifyRequest.iris_commitment_proof q
  = (slice_to 8 (Voter.iris_commitment (fields v)) ++ rest)%string ->
  64 <= len (VerifyRequest.signed_nonce q) ->
  fst (auth_verify q db) = Ok (Verified (Voter.public_key_hash (fields v))).
Proof.
  intros Hv Hs Hid Hlen Hproof Hsig. rewrite auth_verify_eq, Hv.
  destruct (filter _ (authsession db)) as [|d l] eqn:E.
  { assert (In s []) as []. rewrite <- E. apply filter_In. split; [exact Hs|].
    now apply String.eqb_eq. }
  cbv zeta. unfold proof_ok, sig_ok.
  rewrite Hproof, slice_to_prefix by exact Hlen.
  rewrite String.eqb_refl. apply Nat.leb_le in Hsig. rewrite Hsig. reflexivity.
Qed.

Lemma X18_commitment_prefix_suffices_witness :
  fst (auth_verify
         {| VerifyRequest.voter_id := "V1";
            VerifyRequest.iris_commitment_proof := "c0ffee00 and anything else";
            VerifyRequest.signed_nonce :=
              "----------------------------------------------------------------" |}
         db_challenged)
  = Ok (Verified ann_hash).
Proof.
  refine (@X18_commitment_prefix_suffices
            {| VerifyRequest.voter_id := "V1";
               VerifyRequest.iris_commitment_proof := "c0ffee00 and anything else";
               VerifyRequest.signed_nonce :=
                 "----------------------------------------------------------------" |}
            db_challenged
            {| _id := 0%N;
               fields := {| Voter.voter_id := "V1"; Voter.name := "Ann";
                            Voter.email := None; Voter.demographics := [];
                            Voter.public_key := "0xAB"; Voter.public_key_hash := ann_hash;
                            Voter.iris_commitment := "c0ffee0011223344";
                            Voter.registered_at := Some 10000%Z |} |}
            {| _id := 1%N;
               fields := {| AuthSession.voter_id := "V1"; AuthSession.nonce := "n1";
                            AuthSession.created_at := Some 20000%Z;
                            AuthSession.verified := false |} |}
            " and anything else" _ _ _ _ _ _).
  - vm_compute. reflexivity.
  - vm_compute. left. reflexivity.
  - reflexivity.
  - vm_compute. lia.
  - reflexivity.
  - vm_compute. lia.
Defined.

(** X19: with the voter and a challenge present, Verify fails with 401
    "Verification failed", and changes nothing, as soon as the signed
    nonce has fewer than 64 characters or the first eight characters of
    proof and commitment differ; no flag is set by a failed attempt. *)
Theorem X19_verify_rejects_with_401 q db v s :
  find (by_voter_id (VerifyRequest.voter_id q)) (voter db) = Some v ->
  In s (authsession db) ->
  AuthSession.voter_id (fields s) = VerifyRequest.voter_id q ->
  len (VerifyRequest.signed_nonce q) < 64
  \/ slice_to 8 (Voter.iris_commitment (fields v))
     <> slice_to 8 (VerifyRequest.iris_commitment_proof q) ->
  auth_verify q db = (Raised VerificationError, db).
Proof.
  intros Hv Hs Hid Hbad. rewrite auth_verify_eq, Hv.
  destruct (filter _ (authsession db)) as [|d l] eqn:E.
  { assert (In s []) as []. rewrite <- E. apply filter_In. split; [exact Hs|].
    now apply String.eqb_eq. }
  cbv zeta. unfold proof_ok, sig_ok.
  destruct Hbad as [Hsig|Hproof].
  - apply Nat.leb_gt in Hsig. rewrite Hsig, andb_false_r. reflexivity.
  - apply String.eqb_neq in Hproof. rewrite Hproof. reflexivity.
Qed.

Lemma X19_verify_rejects_with_401_witness :
  auth_verify
    {| VerifyRequest.voter_id := "V1";
       VerifyRequest.iris_commitment_proof := "c0ffee0011223344";
       VerifyRequest.signed_nonce := "too short" |}
    db_challenged
  = (Raised VerificationError, db_challenged).
Proof.
  refine (@X19_verify_rejects_with_401
            {| VerifyRequest.voter_id := "V1";
               VerifyRequest.iris_commitment_proof := "c0ffee0011223344";
               VerifyRequest.signed_nonce := "too short" |}
            db_challenged
            {| _id := 0%N;
               fields := {| Voter.voter_id := "V1"; Voter.name := "Ann";
                            Voter.email := None; Voter.demographics := [];
                            Voter.public_key := "0xAB"; Voter.public_key_hash := ann_hash;
                            Voter.iris_commitment := "c0ffee0011223344";
                            Voter.registered_at := Some 10000%Z |} |}
            {| _id := 1%N;
               fields := {| AuthSession.voter_id := "V1"; AuthSession.nonce := "n1";
                            AuthSession.created_at := Some 20000%Z;
                            AuthSession.verified := false |} |} _ _ _ _).
  - vm_compute. reflexivity.
  - vm_compute. left. reflexivity.
  - reflexivity.
  - left. vm_compute. lia.
Defined.

Lemma X14_cast_vote_is_listed_witness :
  exists items,
    fst (list_votes (Some "000000000000000000000000")
           (snd (cast_vote (ballot "c1") db_prez))) = Ok (Votes items)
    /\ In ("000000000000000000000001", vote_record (ballot "c1")) items.
Proof.
  apply (@X14_cast_vote_is_listed (ballot "c1") db_prez "000000000000000000000001"
           (snd (cast_vote (ballot "c1") db_prez))).
  - vm_compute. reflexivity.
  - right. reflexivity.
Defined.
